(** * Verification of the srer rain-gage map widget and photo scraper

    The repository ships two variants of the browser widget
    ([src/static/js/application.js] and a second, unnamed script that also
    binds popups and a click handler).  Both are embedded here over a small
    model of the JavaScript values a parsed JSON response is made of, with
    the calls into jQuery and Leaflet written as updates of an explicit page
    state and a thrown exception as an explicit outcome. *)

From Stdlib Require Import Ascii.
From stdpp Require Import gmap strings list fin_maps pretty.

Set Warnings "-register-all".

(** ** JavaScript values *)

Module JS.

Section Values.

(** IEEE doubles are kept abstract: the widget never computes with them,
    it only passes them on and converts them to text. *)
Variable number : Type.
Variable number_to_string : number -> string.

Inductive value : Type :=
| VUndefined
| VNull
| VBool (b : bool)
| VNum (n : number)
| VStr (s : string)
| VArr (items : list value)
| VObj (props : gmap string value).

(** Outcome of evaluating an expression or running a callback: a value, a
    [TypeError] thrown by the script's own code, or an exception thrown
    inside a call into Leaflet (an [Error] or a [TypeError], by version and
    argument). *)
Inductive result (A : Type) : Type :=
| Ok (a : A)
| TypeError
| LibraryError.
Global Arguments Ok {A} a.
Global Arguments TypeError {A}.
Global Arguments LibraryError {A}.

Definition bind {A B} (r : result A) (k : A -> result B) : result B :=
  match r with
  | Ok a => k a
  | TypeError => TypeError
  | LibraryError => LibraryError
  end.

Global Instance result_ret : MRet result := fun _ a => Ok a.
Global Instance result_bind : MBind result := fun _ _ k r => bind r k.

(** [o.k] for one of the property names the widget reads ([data],
    [raingages], [edges], [node], [id], [name], [latitude], [longitude]):
    none of them exists on a primitive wrapper or on [Array.prototype], so
    only an object parsed from JSON can answer with something else than
    [undefined]; reading a property of [undefined] or [null] throws. *)
Definition get (v : value) (k : string) : result value :=
  match v with
  | VUndefined | VNull => TypeError
  | VObj props => Ok (default VUndefined (props !! k))
  | _ => Ok VUndefined
  end.

(** [Array.prototype.join] with separator [","]. *)
Fixpoint join (parts : list string) : string :=
  match parts with
  | [] => ""
  | [p] => p
  | p :: rest => p +:+ "," +:+ join rest
  end.

Fixpoint sequence {A} (rs : list (result A)) : result (list A) :=
  match rs with
  | [] => Ok []
  | r :: rest =>
      bind r (fun a => bind (sequence rest) (fun l => Ok (a :: l)))
  end.

(** The conversion [+] applies to a non-string operand of a string
    concatenation.  A JSON object carries no callable property, so an
    object with an own [toString] key cannot be converted (the inherited
    [valueOf] hands back the object itself); any other object prints as
    [[object Object]].  An array prints its elements joined by commas,
    [null] and [undefined] elements as the empty string. *)
Fixpoint to_string (v : value) : result string :=
  match v with
  | VUndefined => Ok "undefined"
  | VNull => Ok "null"
  | VBool true => Ok "true"
  | VBool false => Ok "false"
  | VNum n => Ok (number_to_string n)
  | VStr s => Ok s
  | VArr items =>
      bind (sequence
              (List.map (fun x => match x with
                                  | VUndefined | VNull => Ok ""
                                  | _ => to_string x
                                  end) items))
           (fun parts => Ok (join parts))
  | VObj props =>
      match props !! "toString" with
      | Some _ => TypeError
      | None => Ok "[object Object]"
      end
  end.

(** A GraphQL leaf value: anything but an array or an object. *)
Definition scalar (v : value) : bool :=
  match v with
  | VArr _ | VObj _ => false
  | _ => true
  end.

End Values.

Arguments VUndefined {number}.
Arguments VNull {number}.
Arguments VBool {number} b.
Arguments VNum {number} n.
Arguments VStr {number} s.
Arguments VArr {number} items.
Arguments VObj {number} props.
Arguments get {number} v k.
Arguments scalar {number} v.

End JS.

(** ** The page and the library calls *)

Module Widget.
Import JS.

Section Page.

Variable number : Type.
Variable number_to_string : number -> string.

Abbreviation value := (JS.value number).
Abbreviation to_string := (JS.to_string number number_to_string).

(** What lies outside the repository and differs between versions of the
    libraries is kept abstract: what the browser's parser and serialiser
    make of markup that is not plain text, and whether Leaflet takes a
    coordinate pair about which its versions disagree. *)
Variable browser : string -> string.
Variable leaflet_takes : value -> value -> bool.

(** A Leaflet marker object: the coordinate array it was created with, the
    [title] of its options object ([None] when [L.marker] got no options)
    and the popup content bound to it, if any. *)
Record marker : Type := Marker {
  coords : value * value;
  title : option value;
  popup : option string
}.

(** What the scripts can change.  [markers]: the markers that
    [L.marker(...).addTo(theMap)] has handed back, in the order of the
    calls; what Leaflet keeps of a marker whose [addTo] throws is not
    recorded.  [tiles]: the tile layers added to the map.  [requests]: the
    URLs handed to [$.getJSON].  [html_of]: for the elements the scripts
    address by id, the inner markup as it reads back; the inside of the map
    container is Leaflet's from the moment the map is made and is recorded
    as [tiles] and [markers] only.  [click_bound]: whether the delegated
    click handler is installed on [body].  [map_made]: whether [theMap]
    exists. *)
Record page : Type := Page {
  markers : list marker;
  tiles : list string;
  requests : list string;
  html_of : gmap string string;
  click_bound : bool;
  map_made : bool
}.

Definition set_markers (f : list marker -> list marker) (p : page) : page :=
  Page (f (markers p)) (tiles p) (requests p) (html_of p) (click_bound p)
       (map_made p).

Definition set_tiles (f : list string -> list string) (p : page) : page :=
  Page (markers p) (f (tiles p)) (requests p) (html_of p) (click_bound p)
       (map_made p).

Definition set_requests (f : list string -> list string) (p : page) : page :=
  Page (markers p) (tiles p) (f (requests p)) (html_of p) (click_bound p)
       (map_made p).

Definition set_html_of (f : gmap string string -> gmap string string)
    (p : page) : page :=
  Page (markers p) (tiles p) (requests p) (f (html_of p)) (click_bound p)
       (map_made p).

Definition set_click_bound (b : bool) (p : page) : page :=
  Page (markers p) (tiles p) (requests p) (html_of p) b (map_made p).

(** A callback is a state transformer that may stop with an exception; the
    changes made before the throw stay. *)
Definition M (A : Type) : Type := page -> page * result A.

Definition ret {A} (a : A) : M A := fun p => (p, Ok a).

Definition throw {A} : M A := fun p => (p, TypeError).

Definition run_then {A B} (m : M A) (k : A -> M B) : M B :=
  fun p =>
    match m p with
    | (p', Ok a) => k a p'
    | (p', TypeError) => (p', TypeError)
    | (p', LibraryError) => (p', LibraryError)
    end.

Definition lift {A} (r : result A) : M A := fun p => (p, r).

Global Instance M_ret : MRet M := @ret.
Global Instance M_bind : MBind M := fun _ _ k m => run_then m k.

(** [L.map(id)] with its [setView]: Leaflet throws "Map container not
    found." when the document has no element with that id; otherwise the
    map is made and the inside of the container is Leaflet's. *)
Definition create_map (id : string) : M unit :=
  fun p =>
    match html_of p !! id with
    | None => (p, LibraryError)
    | Some _ =>
        (Page (markers p) (tiles p) (requests p) (delete id (html_of p))
              (click_bound p) true,
         Ok tt)
    end.

(** Whether Leaflet makes a marker of the coordinate array [[a, b]] and puts
    it on the map.  Two numbers are taken by every version.  A first
    element that is [undefined] or [null], or a second that is [undefined],
    makes [L.marker] throw "Invalid LatLng object" or leaves the marker
    without position, on which [addTo] throws.  On everything else the
    versions differ. *)
Definition placeable (c : value * value) : bool :=
  match c with
  | (VNum _, VNum _) => true
  | (VUndefined, _) | (VNull, _) | (_, VUndefined) => false
  | (a, b) => leaflet_takes a b
  end.

(** Whether the icon of the marker can take the title of the options:
    Leaflet assigns it to the [title] of an element, which makes text of
    it. *)
Definition title_ok (t : option value) : bool :=
  match t with
  | None => true
  | Some x =>
      match to_string x with
      | Ok _ => true
      | _ => false
      end
  end.

(** [L.marker(coords, options).addTo(theMap)]: when Leaflet takes the
    coordinates and the title, the new marker becomes the last layer of the
    map and the result is the marker itself, named by its position among
    the markers; otherwise the call throws. *)
Definition add_marker (c : value * value) (t : option value) : M nat :=
  fun p =>
    if placeable c && title_ok t
    then (set_markers (fun ms => ms ++ [Marker c t None]) p,
          Ok (length (markers p)))
    else (p, LibraryError).

(** [marker.bindPopup(html)] changes the marker that is already on the map. *)
Definition bindPopup (h : nat) (html : string) : M unit :=
  fun p => (set_markers
              (alter (fun m => Marker (coords m) (title m) (Some html)) h) p,
            Ok tt).

(** [L.tileLayer(url, options).addTo(theMap)]. *)
Definition add_tiles (url : string) : M unit :=
  fun p => (set_tiles (fun ts => ts ++ [url]) p, Ok tt).

(** [$.getJSON(url)]: one HTTP GET for [url]. *)
Definition getJSON (url : string) : M unit :=
  fun p => (set_requests (fun rs => rs ++ [url]) p, Ok tt).

(** Text that is markup of nothing but itself: printable ASCII without
    [<], [>] and [&]. *)
Definition plain_char (c : ascii) : bool :=
  (32 <=? nat_of_ascii c) && (nat_of_ascii c <=? 126)
  && negb (bool_decide (c = "<"%char)) && negb (bool_decide (c = ">"%char))
  && negb (bool_decide (c = "&"%char)).

Fixpoint plain_text (s : string) : bool :=
  match s with
  | "" => true
  | String c rest => plain_char c && plain_text rest
  end.

(** The inner markup of an element after [s] was assigned to it: plain text
    reads back as it is; anything else is parsed, and reads back as the
    browser serialises what it built. *)
Definition reads_back (s : string) : string :=
  if plain_text s then s else browser s.

(** [$('#' + id).html(s)]: the matched element gets [s] as its markup; a
    selector that matches nothing changes nothing. *)
Definition set_html (id s : string) : M unit :=
  fun p => (set_html_of (alter (fun _ => reads_back s) id) p, Ok tt).

(** [$('body').on('click', '.gage-popup', handler)]. *)
Definition on_click : M unit :=
  fun p => (set_click_bound true p, Ok tt).

Fixpoint for_each (items : list value) (f : value -> M unit) : M unit :=
  match items with
  | [] => ret tt
  | g :: rest => f g ;; for_each rest f
  end.

(** [v.forEach(f)]: only an array has a callable [forEach]. *)
Definition forEach (v : value) (f : value -> M unit) : M unit :=
  match v with
  | VArr items => for_each items f
  | _ => throw
  end.

(** [s + v] with [s] a string. *)
Definition concat (s : string) (v : result value) : result string :=
  bind v (fun x => bind (to_string x) (fun t => Ok (s +:+ t))).

(** [gage.node.k] *)
Definition node_prop (gage : value) (k : string) : result value :=
  bind (get gage "node") (fun n => get n k).

(** ** The scripts *)

Definition tile_url : string :=
  "https://api.tiles.mapbox.com/v4/{id}/{z}/{x}/{y}.png?access_token=pk.eyJ1IjoiYWNhdGVqciIsImEiOiJDTFpxOWpJIn0.1gwlWR5IcLfCAbBs0Ue27g".

Definition baseUrl : string := "http://127.0.0.1:8000/api/graphql?query=".

Definition raingageQry : string :=
  "{ raingages { edges { node { id latitude longitude code name } } } }".

(** [markerPopup] of the second script: three [html +=] in a row; each
    operand of [+] is evaluated, and turned into text, from left to right. *)
Definition markerPopup (gage : value) : result string :=
  let html := "" in
  line1 ←
    (s ← concat "<div><a id='" (node_prop gage "id");
     s ← concat (s +:+ "' href='#' class='gage-popup' data-name='")
                 (node_prop gage "name");
     s ← concat (s +:+ "'>") (node_prop gage "name");
     Ok (s +:+ "</a></div>"));
  let html := html +:+ line1 in
  line2 ←
    (s ← concat "<div>Latitude: " (node_prop gage "latitude");
     Ok (s +:+ "</div>"));
  let html := html +:+ line2 in
  line3 ←
    (s ← concat "<div>Latitude: " (node_prop gage "longitude");
     Ok (s +:+ "</div>"));
  let html := html +:+ line3 in
  Ok html.

(** The two scripts: [src/static/js/application.js] and the unnamed second
    script, which also titles the markers, binds popups and installs the
    click handler. *)
Inductive script : Type :=
| Application
| Part000.

(** The function [src/static/js/application.js] hands to [forEach]. *)
Definition edge_application (g : value) : M unit :=
  latitude ← lift (node_prop g "latitude");
  longitude ← lift (node_prop g "longitude");
  let coords := (latitude, longitude) in
  marker ← add_marker coords None;
  mret tt.

(** The [done] callback of [src/static/js/application.js]. *)
Definition done_application (response : value) : M unit :=
  data ← lift (get response "data");
  raingages ← lift (get data "raingages");
  edges ← lift (get raingages "edges");
  forEach edges edge_application.

(** The function the second script hands to [forEach]. *)
Definition edge_part000 (g : value) : M unit :=
  latitude ← lift (node_prop g "latitude");
  longitude ← lift (node_prop g "longitude");
  let coords := (latitude, longitude) in
  name ← lift (node_prop g "name");
  let markerAttributes := Some name in
  marker ← add_marker coords markerAttributes;
  html ← lift (markerPopup g);
  bindPopup marker html.

(** The [done] callback of the second script. *)
Definition done_part000 (response : value) : M unit :=
  data ← lift (get response "data");
  raingages ← lift (get data "raingages");
  edges ← lift (get raingages "edges");
  forEach edges edge_part000.

Definition done_callback (v : script) : value -> M unit :=
  match v with
  | Application => done_application
  | Part000 => done_part000
  end.

(** The click handler; [data_name] is what [$(this).data('name')] gives for
    the clicked element.  The inner [.html('')] runs before the argument of
    the outer call is evaluated. *)
Definition click_handler (data_name : value) : M bool :=
  set_html "gage-name" "";;
  s ← lift (concat "Gage: " (Ok data_name));
  set_html "gage-name" s;;
  mret false.

(** The function handed to [$(document).ready]: the map, the tile layer,
    the request and, in the second script, the click handler. *)
Definition ready (v : script) : M unit :=
  create_map "themap";;
  add_tiles tile_url;;
  getJSON (baseUrl +:+ raingageQry);;
  match v with
  | Application => mret tt
  | Part000 => on_click
  end.

(** ** A page load *)

(** What happens to a loaded page: the reply to its request arrives, or an
    element of class [gage-popup] is clicked. *)
Inductive event : Type :=
| Reply (response : value)
| Click (data_name : value).

(** A reply is handed to the [done] callback of the request, where one was
    sent; a click to the click handler, where one is installed. *)
Definition dispatch (v : script) (e : event) : M unit :=
  match e with
  | Reply response =>
      fun p => match requests p with
               | [] => (p, Ok tt)
               | _ :: _ => done_callback v response p
               end
  | Click data_name =>
      fun p => if click_bound p
               then (click_handler data_name;; mret tt) p
               else (p, Ok tt)
  end.

(** An error thrown by a callback ends that callback and nothing else. *)
Definition settle {A} (m : M A) (p : page) : page := (m p).1.

(** The document as served: no map, no request sent, no handler. *)
Definition served (doc : gmap string string) : page :=
  Page [] [] [] doc false false.

Definition load (v : script) (doc : gmap string string) (evs : list event)
    : page :=
  foldl (fun p e => settle (dispatch v e) p) (settle (ready v) (served doc)) evs.

(** ** Gage records *)

(** An edge of the response that carries a gage record: an object whose
    [node] is an object with scalar [id], [name], [latitude] and [longitude]
    (a field left out reads as [undefined]). *)
Definition field (props : gmap string value) (k : string) : value :=
  default VUndefined (props !! k).

Definition is_gage_record (g : value) : bool :=
  match g with
  | VObj props =>
      match props !! "node" with
      | Some (VObj n) =>
          scalar (field n "id") && scalar (field n "name")
          && scalar (field n "latitude") && scalar (field n "longitude")
      | _ => false
      end
  | _ => false
  end.

(** The coordinate pair of a record, read off its node. *)
Definition record_coords (g : value) : value * value :=
  match g with
  | VObj props =>
      match props !! "node" with
      | Some (VObj n) => (field n "latitude", field n "longitude")
      | _ => (VUndefined, VUndefined)
      end
  | _ => (VUndefined, VUndefined)
  end.

(** A record with a position: the latitude and the longitude of its node
    are numbers. *)
Definition has_position (g : value) : bool :=
  match record_coords g with
  | (VNum _, VNum _) => true
  | _ => false
  end.

(** Whether a script installs the click handler. *)
Definition installs_handler (v : script) : bool :=
  match v with
  | Application => false
  | Part000 => true
  end.

(** What holds of a page that [ready] has set up in a document with the map
    container, whatever came after. *)
Definition loaded (v : script) (doc : gmap string string) (p : page) : Prop :=
  requests p = [baseUrl +:+ raingageQry]
  /\ tiles p = [tile_url]
  /\ click_bound p = installs_handler v
  /\ map_made p = true
  /\ (is_Some (html_of p !! "gage-name") <-> is_Some (doc !! "gage-name")).

(** A callback that only puts markers behind those that are there, which
    ones and with what ending not depending on the page. *)
Definition appends (m : M unit) : Prop :=
  exists added outcome,
    forall q, m q = (set_markers (fun ms => ms ++ added) q, outcome).

(** [response.data.raingages.edges] *)
Definition edges_of (response : value) : result value :=
  data ← get response "data";
  raingages ← get data "raingages";
  get raingages "edges".

(** ** What the claims speak about *)

(** The coordinate pairs of the markers on the map, in the order in which
    the markers were added. *)
Definition placed (p : page) : list (value * value) := coords <$> markers p.

(** The popup a record gets; the empty string stands in where [markerPopup]
    throws. *)
Definition popup_html (g : value) : string :=
  match markerPopup g with
  | Ok html => html
  | _ => ""
  end.

(** The marker [src/static/js/application.js] makes for a record. *)
Definition plain_marker (g : value) : marker :=
  Marker (record_coords g) None None.

(** The marker the second script makes for a record. *)
Definition popup_marker (g : value) : marker :=
  match g with
  | VObj props =>
      match props !! "node" with
      | Some (VObj n) =>
          Marker (record_coords g) (Some (field n "name")) (Some (popup_html g))
      | _ => Marker (record_coords g) (Some VUndefined) (Some (popup_html g))
      end
  | _ => Marker (record_coords g) (Some VUndefined) (Some (popup_html g))
  end.

Definition marker_of (v : script) : value -> marker :=
  match v with
  | Application => plain_marker
  | Part000 => popup_marker
  end.

(** The text [markerPopup] shows for the field [k] of a record. *)
Definition field_text (g : value) (k : string) : result string :=
  x ← node_prop g k; to_string x.

(** Rewriting a response: [over_prop k f] applies [f] to the property [k] of
    an object, [drop_prop k] removes it, [over_items f] applies [f] to every
    element of an array; each leaves a value of another shape alone. *)
Definition over_prop (k : string) (f : value -> value) (v : value) : value :=
  match v with
  | VObj props => VObj (alter f k props)
  | _ => v
  end.

Definition drop_prop (k : string) (v : value) : value :=
  match v with
  | VObj props => VObj (delete k props)
  | _ => v
  end.

Definition over_items (f : value -> value) (v : value) : value :=
  match v with
  | VArr items => VArr (f <$> items)
  | _ => v
  end.

(** The response without the [code] of the node of each edge: two responses
    differ in nothing but those codes when this makes them equal. *)
Definition erase_code (response : value) : value :=
  over_prop "data"
    (over_prop "raingages"
       (over_prop "edges"
          (over_items (over_prop "node" (drop_prop "code")))))
    response.

End Page.

Arguments Marker {number} coords title popup.
Arguments coords {number} m.
Arguments title {number} m.
Arguments popup {number} m.
Arguments Page {number} markers tiles requests html_of click_bound map_made.
Arguments markers {number} p.
Arguments tiles {number} p.
Arguments requests {number} p.
Arguments html_of {number} p.
Arguments click_bound {number} p.
Arguments map_made {number} p.
Arguments Reply {number} response.
Arguments Click {number} data_name.
Arguments is_gage_record {number} g.
Arguments record_coords {number} g.
Arguments edges_of {number} response.
Arguments node_prop {number} gage k.
Arguments field {number} props k.
Arguments served {number} doc.
Arguments over_prop {number} k f v.
Arguments drop_prop {number} k v.
Arguments over_items {number} f v.
Arguments erase_code {number} response.
Arguments plain_marker {number} g.
Arguments placed {number} p.
Arguments has_position {number} g.
Arguments loaded {number} v doc p.

End Widget.

Module Text.

(** ** Text search *)

(** [needle] occurs in [hay]. *)
Definition occurs_in (needle hay : string) : Prop :=
  exists before after, hay = before +:+ needle +:+ after.

(** [c] is one of the characters of [s]. *)
Fixpoint has_char (c : ascii) (s : string) : bool :=
  match s with
  | "" => false
  | String c' rest => bool_decide (c = c') || has_char c rest
  end.

(** The same as a test, by trying every position. *)
Fixpoint occurs_inb (needle hay : string) : bool :=
  String.prefix needle hay
  || match hay with
     | "" => false
     | String _ rest => occurs_inb needle rest
     end.

End Text.

(** ** The photo scraper

    The scraper's sources are not part of the files under verification;
    this module follows sections 3, 4 and 7 of the specification. *)

Module Scraper.

(** Modelled from the spec: a parsed HTML document (the scraper's parser is
    missing); an element has a type, attributes and children. *)
Inductive html : Type :=
| Text (t : string)
| Element (tag : string) (attrs : list (string * string)) (kids : list html).

(** Modelled from the spec: the structural marker of section 4.2, "a
    specific element type + class combination" (the scraper's selectors are
    missing). *)
Record selector : Type := Selector {
  sel_tag : string;
  sel_class : option string
}.

(** Modelled from the spec: PhotoRecord of section 3 (the scraper's record
    is missing). *)
Record PhotoRecord : Type := Photo {
  station : string;
  archive_number : option string;
  image_url : option string;
  summary : string;
  direction : string
}.

(** Modelled from the spec: the answer to one page request of section 4.2,
    step 2 (the scraper's HTTP client is missing): a transport error, or a
    status with the body as the parser reads it. *)
Inductive page_response : Type :=
| NetworkError
| Http (status : nat) (body : list html).

(** Modelled from the spec: what a path of the filesystem holds (section 6;
    the scraper's file handling is missing): the station list, one
    identifier per record; the MetadataStore; a directory; a downloaded
    image. *)
Inductive entry : Type :=
| StationList (ids : list string)
| Metadata (records : list PhotoRecord)
| Directory
| Image (bytes : string).

(** Modelled from the spec: how a run ends (section 7; the scraper's entry
    points are missing): it completes, or an error reaches the caller. *)
Inductive outcome (A : Type) : Type :=
| Completed (a : A)
| Raised.
Arguments Completed {A} a.
Arguments Raised {A}.

(** Modelled from the spec: lookup of an attribute of an element (the
    scraper's parser is missing). *)
Fixpoint assoc (k : string) (l : list (string * string)) : option string :=
  match l with
  | [] => None
  | (k', v) :: rest => if decide (k = k') then Some v else assoc k rest
  end.

(** Modelled from the spec: the attribute [k] of an element (the scraper's
    parser is missing). *)
Definition attr (k : string) (h : html) : option string :=
  match h with
  | Text _ => None
  | Element _ attrs _ => assoc k attrs
  end.

(** Modelled from the spec: an element matches a marker when it has the
    marker's type and, where the marker names a class, its class attribute
    lists that class (the scraper's selectors are missing). *)
Definition matches (sel : selector) (h : html) : bool :=
  match h with
  | Text _ => false
  | Element tag attrs _ =>
      bool_decide (tag = sel_tag sel)
      && match sel_class sel with
         | None => true
         | Some c =>
             bool_decide (c ∈ String.words (default "" (assoc "class" attrs)))
         end
  end.

(** Modelled from the spec: "locate all elements matching a fixed
    structural marker", in document order (the scraper's parser is
    missing). *)
Fixpoint find_all (sel : selector) (h : html) : list html :=
  match h with
  | Text _ => []
  | Element _ _ kids =>
      (if matches sel h then [h] else []) ++ flat_map (find_all sel) kids
  end.

(** Modelled from the spec: the number K of elements of a page that match
    the marker (section 8). *)
Fixpoint count_matching (sel : selector) (h : html) : nat :=
  match h with
  | Text _ => 0
  | Element _ _ kids =>
      (if matches sel h then 1 else 0)
      + foldr (fun k n => count_matching sel k + n) 0 kids
  end.

(** Modelled from the spec: K for a whole page, a sequence of top-level
    nodes (section 8). *)
Definition count_page (sel : selector) (body : list html) : nat :=
  foldr (fun h n => count_matching sel h + n) 0 body.

(** Modelled from the spec: a fetch that "fails with a network error or
    non-success status" (section 4.2, step 2); success is a status in the
    200s. *)
Definition success (status : nat) : bool :=
  bool_decide (200 ≤ status < 300).

(** Modelled from the spec: the fetches that section 4.2, step 2 calls
    failed (missing from the sources). *)
Definition failed (r : page_response) : bool :=
  match r with
  | NetworkError => true
  | Http status _ => negb (success status)
  end.

(** Modelled from the spec: the text inside an element (the scraper's parser
    is missing). *)
Fixpoint text_of (h : html) : string :=
  match h with
  | Text t => t
  | Element _ _ kids => foldr (fun k s => text_of k +:+ s) "" kids
  end.

(** Modelled from the spec: the first element nested in [h] that matches
    (the scraper's parser is missing). *)
Definition nested (sel : selector) (h : html) : option html :=
  match h with
  | Text _ => None
  | Element _ _ kids => head (flat_map (find_all sel) kids)
  end.

(** Modelled from the spec: the file name of a download, "derived from the
    URL's final path segment" (the downloader is missing). *)
Fixpoint last_segment_from (seen url : string) : string :=
  match url with
  | "" => seen
  | String c rest =>
      if decide (c = "/"%char) then last_segment_from "" rest
      else last_segment_from (seen +:+ String c "") rest
  end.

(** Modelled from the spec: the final path segment of a URL (section 4.3,
    step 3; the downloader is missing). *)
Definition last_segment (url : string) : string := last_segment_from "" url.

(** Modelled from the spec: what the specification fixes "by convention"
    without giving it (paths, URL template, markers, the reading of the
    archive number, the resolution of a reference to an absolute URL), and
    the world outside: the answer to the [n]-th request of a run, and
    whether a path can be written. *)
Record setting : Type := Setting {
  stations_path : string;
  store_path : string;
  image_root : string;
  page_url_base : string;
  entry_marker : selector;
  image_marker : selector;
  summary_marker : selector;
  direction_marker : selector;
  archive_of : html -> option string;
  resolve : string -> option string;
  fetch_page : nat -> string -> page_response;
  fetch_image : nat -> string -> option string;
  writable : string -> bool
}.

Section Pipeline.

Variable w : setting.

(** Modelled from the spec: section 4.1, the Station List Loader (missing
    from the sources): the identifiers in file order, nothing validated,
    nothing removed; a missing or unreadable file fails loudly. *)
Definition load_stations (fs : gmap string entry) : outcome (list string) :=
  match fs !! stations_path w with
  | Some (StationList ids) => Completed ids
  | _ => Raised
  end.

(** Modelled from the spec: section 4.2, step 1 (missing from the
    sources). *)
Definition page_url (sid : string) : string := page_url_base w +:+ sid.

(** Modelled from the spec: section 4.2, step 4 (missing from the sources):
    a missing nested element gives an absent or empty field. *)
Definition extract (sid : string) (e : html) : PhotoRecord :=
  Photo sid
        (archive_of w e)
        (nested (image_marker w) e ≫= attr "src")
        (default "" (text_of <$> nested (summary_marker w) e))
        (default "" (text_of <$> nested (direction_marker w) e)).

(** Modelled from the spec: section 4.2, steps 3 to 5 for one fetched page
    (missing from the sources). *)
Definition page_records (sid : string) (body : list html) : list PhotoRecord :=
  extract sid <$> flat_map (find_all (entry_marker w)) body.

(** Modelled from the spec: the Scraper's state (missing from the sources):
    the page requests attempted and the records accumulated. *)
Record scrape_state : Type := Scrape {
  attempts : list string;
  records : list PhotoRecord
}.

(** Modelled from the spec: section 4.2 for one station (missing from the
    sources); a failed fetch is logged and the run goes on. *)
Definition scrape_station (st : scrape_state) (sid : string) : scrape_state :=
  let url := page_url sid in
  match fetch_page w (length (attempts st)) url with
  | NetworkError => Scrape (attempts st ++ [url]) (records st)
  | Http status body =>
      if success status
      then Scrape (attempts st ++ [url]) (records st ++ page_records sid body)
      else Scrape (attempts st ++ [url]) (records st)
  end.

(** Modelled from the spec: section 4.2, the loop over the loaded sequence,
    strictly in order (missing from the sources). *)
Definition scrape (st : scrape_state) (ids : list string) : scrape_state :=
  foldl scrape_station st ids.

(** Modelled from the spec: a run of the Metadata Scraper (missing from the
    sources): load the list, scrape, overwrite the MetadataStore. *)
Definition run_scraper (fs : gmap string entry)
    : outcome (gmap string entry * scrape_state) :=
  match load_stations fs with
  | Raised => Raised
  | Completed ids =>
      let st := scrape (Scrape [] []) ids in
      if writable w (store_path w)
      then Completed (<[store_path w := Metadata (records st)]> fs, st)
      else Raised
  end.

(** Modelled from the spec: section 4.3, step 3 (missing from the sources):
    the reference to fetch, if the record has a usable one. *)
Definition usable (r : PhotoRecord) : option string :=
  match image_url r with
  | None => None
  | Some u => if decide (u = "") then None else resolve w u
  end.

(** Modelled from the spec: the Downloader's state (missing from the
    sources): the filesystem and the image requests made. *)
Record download_state : Type := Download {
  disk : gmap string entry;
  fetches : list string
}.

(** Modelled from the spec: "one directory per station identifier under a
    fixed root" (section 6; missing from the sources). *)
Definition station_dir (sid : string) : string := image_root w +:+ "/" +:+ sid.

(** Modelled from the spec: section 4.3, step 2 (missing from the sources):
    the station's directory is created unless it exists; a filesystem error
    halts the run. *)
Definition ensure_dir (st : download_state) (sid : string)
    : option download_state :=
  match disk st !! station_dir sid with
  | Some Directory => Some st
  | _ =>
      if writable w (station_dir sid)
      then Some (Download (<[station_dir sid := Directory]> (disk st))
                          (fetches st))
      else None
  end.

(** Modelled from the spec: section 4.3, steps 3 and 4 for one record
    (missing from the sources). *)
Definition download_record (st : download_state) (r : PhotoRecord)
    : option download_state :=
  match usable r with
  | None => Some st
  | Some url =>
      let st' := Download (disk st) (fetches st ++ [url]) in
      match fetch_image w (length (fetches st)) url with
      | None => Some st'
      | Some bytes =>
          let path := station_dir (station r) +:+ "/" +:+ last_segment url in
          if writable w path
          then Some (Download (<[path := Image bytes]> (disk st')) (fetches st'))
          else None
      end
  end.

(** Modelled from the spec: the records are taken one after the other; an
    error that is not caught ends the run (sections 4.3 and 7; missing from
    the sources). *)
Fixpoint each {A} (f : download_state -> A -> option download_state)
    (st : download_state) (l : list A) : option download_state :=
  match l with
  | [] => Some st
  | a :: rest => st' ← f st a; each f st' rest
  end.

(** Modelled from the spec: a run of the Image Downloader (missing from the
    sources). *)
Definition run_downloader (fs : gmap string entry) : outcome download_state :=
  match fs !! store_path w with
  | Some (Metadata recs) =>
      match st ← each ensure_dir (Download fs []) (station <$> recs);
            each download_record st recs with
      | Some st => Completed st
      | None => Raised
      end
  | _ => Raised
  end.

End Pipeline.
End Scraper.

(** ** The scenario of the specification

    Station list ["101", "205"]; the page of "101" has two photo entries,
    one with an image and one without; the request for "205" times out. *)

Module Scenario.
Import Scraper.

Definition base : string := "http://photos.example/station/".

Definition photo (inner : list html) : html :=
  Element "div" [("class", "photo entry")] inner.

Definition page_101 : list html :=
  [Element "html" []
     [Element "body" []
        [photo [Element "img" [("src", "http://photos.example/img/photo1.jpg")] [];
                Element "p" [("class", "summary")] [Text "Looking north"];
                Element "span" [("class", "direction")] [Text "N"]];
         photo [Element "p" [("class", "summary")] [Text "No picture"]]]]].

Definition world : setting :=
  Setting "stations.csv" "metadata.json" "images" base
    (Selector "div" (Some "photo"))
    (Selector "img" None)
    (Selector "p" (Some "summary"))
    (Selector "span" (Some "direction"))
    (attr "data-archive")
    (fun u => if String.prefix "http://" u then Some u else None)
    (fun n url => if decide (url = base +:+ "101")
                  then Http 200 page_101 else NetworkError)
    (fun n url => Some "JFIF")
    (fun path => true).

Definition files : gmap string entry :=
  {[ "stations.csv" := StationList ["101"; "205"] ]}.

(** The same list with "101" entered twice. *)
Definition files_repeated : gmap string entry :=
  {[ "stations.csv" := StationList ["101"; "205"; "101"] ]}.

Definition with_photo : PhotoRecord :=
  Photo "101" None (Some "http://photos.example/img/photo1.jpg")
        "Looking north" "N".

Definition without_photo : PhotoRecord :=
  Photo "101" None None "No picture" "".

End Scenario.

(** ** Sample responses

    Whole numbers stand in for the doubles; JavaScript prints them in
    decimal.  [browser] and [leaflet] stand in for the two libraries where
    the model leaves them open; no sample below comes to ask them. *)

Module Samples.
Import JS Widget.

Definition browser (s : string) : string := s.

Definition leaflet (a b : value Z) : bool := false.

Definition obj (l : list (string * value Z)) : value Z := VObj (list_to_map l).

Definition gage (id name : value Z) (lat lng : Z) (code : string) : value Z :=
  obj [("node", obj [("id", id); ("latitude", VNum lat);
                     ("longitude", VNum lng); ("code", VStr code);
                     ("name", name)])].

Definition response_of (edges : list (value Z)) : value Z :=
  obj [("data", obj [("raingages", obj [("edges", VArr edges)])])].

Definition two_gages : list (value Z) :=
  [gage (VStr "UmFpbjox") (VStr "Desert Station") 31 (-110) "DS";
   gage (VStr "UmFpbjoy") (VStr "Ridge") 32 (-111) "RG"].

(** The same gages under other codes. *)
Definition two_gages_recoded : list (value Z) :=
  [gage (VStr "UmFpbjox") (VStr "Desert Station") 31 (-110) "1";
   gage (VStr "UmFpbjoy") (VStr "Ridge") 32 (-111) "2"].

(** A gage whose name holds the word the popup never spells out. *)
Definition longitude_ridge : value Z :=
  gage (VStr "UmFpbjoz") (VStr "Longitude Ridge") 31 (-110) "LR".


(** A response with a [null] node between two gages. *)
Definition null_node : list (value Z) :=
  [gage (VStr "UmFpbjox") (VStr "Desert Station") 31 (-110) "DS";
   obj [("node", VNull)];
   gage (VStr "UmFpbjoy") (VStr "Ridge") 32 (-111) "RG"].

(** A response in which the second of three nodes has an id no text can be
    made of. *)
Definition odd_id_in_the_middle : list (value Z) :=
  [gage (VStr "UmFpbjox") (VStr "Desert Station") 31 (-110) "DS";
   gage (obj [("toString", VNull)]) (VStr "Ridge") 32 (-111) "RG";
   gage (VStr "UmFpbjoz") (VStr "Wash") 33 (-112) "WS"].

(** The reply of a GraphQL server that could not answer. *)
Definition error_reply : value Z :=
  obj [("errors", VArr [obj [("message", VStr "Cannot query field")]]);
       ("data", VNull)].

(** The two gages without their names. *)
Definition two_gages_unnamed : list (value Z) :=
  [obj [("node", obj [("id", VStr "UmFpbjox"); ("latitude", VNum 31%Z);
                      ("longitude", VNum (-110)%Z); ("code", VStr "DS")])];
   obj [("node", obj [("id", VStr "UmFpbjoy"); ("latitude", VNum 32%Z);
                      ("longitude", VNum (-111)%Z); ("code", VStr "RG")])]].

(** Two gages, the first with [null] for a latitude. *)
Definition null_latitude : list (value Z) :=
  [obj [("node", obj [("id", VStr "UmFpbjox"); ("latitude", VNull);
                      ("longitude", VNum (-110)%Z); ("code", VStr "DS");
                      ("name", VStr "Desert Station")])];
   gage (VStr "UmFpbjoy") (VStr "Ridge") 32 (-111) "RG"].

(** A document with the map container and an empty element of id
    [gage-name]. *)
Definition document : gmap string string :=
  {[ "themap" := ""; "gage-name" := "" ]}.

(** A document without the map container. *)
Definition no_container : gmap string string := {[ "gage-name" := "" ]}.

End Samples.

(** ** Where the loops of the scripts stop *)

Module Outcomes.
Import JS Widget.

(** The longest initial stretch of [l] on which [ok] holds, and the element
    that ends it. *)
Fixpoint leading {A} (ok : A -> bool) (l : list A) : list A :=
  match l with
  | [] => []
  | a :: rest => if ok a then a :: leading ok rest else []
  end.

Fixpoint first_failing {A} (ok : A -> bool) (l : list A) : option A :=
  match l with
  | [] => None
  | a :: rest => if ok a then first_failing ok rest else Some a
  end.

Section Edges.

Variable number : Type.
Variable number_to_string : number -> string.
Variable leaflet_takes : JS.value number -> JS.value number -> bool.

Abbreviation value := (JS.value number).
Abbreviation placeable := (Widget.placeable number leaflet_takes).
Abbreviation title_ok := (Widget.title_ok number number_to_string).

(** [g.node.latitude] can be read: neither [g] nor [g.node] is [undefined]
    or [null]. *)
Definition readable (g : value) : bool :=
  match node_prop g "latitude" with
  | Ok _ => true
  | _ => false
  end.

(** [markerPopup(g)] returns. *)
Definition convertible (g : value) : bool :=
  match markerPopup number number_to_string g with
  | Ok _ => true
  | _ => false
  end.

(** [g.node.name], [undefined] where it cannot be read. *)
Definition name_of (g : value) : value :=
  match node_prop g "name" with
  | Ok x => x
  | _ => VUndefined
  end.

(** [src/static/js/application.js] gets its marker for the edge on the map:
    the node can be read and Leaflet takes the coordinates. *)
Definition lands (g : value) : bool :=
  readable g && placeable (record_coords g).

(** The second script gets its marker for the edge on the map: Leaflet also
    takes the title. *)
Definition lands_titled (g : value) : bool :=
  readable g && placeable (record_coords g) && title_ok (Some (name_of g)).

(** An edge the second script gets through. *)
Definition passes (g : value) : bool := lands_titled g && convertible g.

(** The marker the second script leaves behind when [markerPopup] throws:
    on the map, titled, without popup. *)
Definition titled_marker (g : value) : marker number :=
  Marker (record_coords g) (Some (name_of g)) None.

Definition stranded (items : list value) : list (marker number) :=
  match first_failing passes items with
  | Some g => if lands_titled g then [titled_marker g] else []
  | None => []
  end.

(** How the loop of [src/static/js/application.js] ends: at the first edge
    that does not land, with the script's own [TypeError] when its node
    cannot be read and with Leaflet's exception otherwise. *)
Definition ending_application (items : list value) : result unit :=
  match first_failing lands items with
  | None => Ok tt
  | Some g => if readable g then LibraryError else TypeError
  end.

(** How the loop of the second script ends: at the first edge that does not
    pass, with Leaflet's exception when the node can be read and the marker
    does not land, with a [TypeError] otherwise. *)
Definition ending_part000 (items : list value) : result unit :=
  match first_failing passes items with
  | None => Ok tt
  | Some g =>
      if readable g && negb (lands_titled g) then LibraryError else TypeError
  end.

(** The response without the property [k] of the node of each edge. *)
Definition erase_node_prop (k : string) (response : value) : value :=
  over_prop "data"
    (over_prop "raingages"
       (over_prop "edges"
          (over_items (over_prop "node" (drop_prop k)))))
    response.

(** The function a script hands to [forEach]. *)
Definition edge_of (v : script) : value -> M number unit :=
  match v with
  | Application => edge_application number number_to_string leaflet_takes
  | Part000 => edge_part000 number number_to_string leaflet_takes
  end.

Definition is_reply (e : event number) : bool :=
  match e with
  | Reply _ => true
  | Click _ => false
  end.

End Edges.

Arguments readable {number} g.
Arguments name_of {number} g.
Arguments titled_marker {number} g.
Arguments erase_node_prop {number} k response.
Arguments is_reply {number} e.

End Outcomes.

(** * Occurrences of a text in a text *)

Module TextFacts.
Import Text.

Lemma text_app_nil (s : string) : "" +:+ s = s.
Proof. reflexivity. Qed.

Lemma text_app_cons (c : ascii) (a b : string) :
  String c a +:+ b = String c (a +:+ b).
Proof. reflexivity. Qed.

Lemma text_app_assoc (a b c : string) : (a +:+ b) +:+ c = a +:+ (b +:+ c).
Proof.
  induction a as [|x a IH]; [done|]. by rewrite !text_app_cons, IH.
Qed.

Lemma text_app_nil_r (s : string) : s +:+ "" = s.
Proof.
  induction s as [|x s IH]; [done|]. by rewrite text_app_cons, IH.
Qed.

Lemma occurs_in_refl (s : string) : occurs_in s s.
Proof. exists "", "". by rewrite text_app_nil, text_app_nil_r. Qed.

Lemma occurs_in_app_l (needle a b : string) :
  occurs_in needle b -> occurs_in needle (a +:+ b).
Proof.
  intros (x & y & ->). exists (a +:+ x), y. by rewrite text_app_assoc.
Qed.

Lemma occurs_in_app_r (needle a b : string) :
  occurs_in needle a -> occurs_in needle (a +:+ b).
Proof.
  intros (x & y & ->). exists x, (y +:+ b). by rewrite !text_app_assoc.
Qed.

Lemma occurs_in_cons (needle : string) (c : ascii) (s : string) :
  occurs_in needle s -> occurs_in needle (String c s).
Proof. intros (x & y & ->). by exists (String c x), y. Qed.

Lemma prefix_app (needle rest : string) :
  String.prefix needle (needle +:+ rest) = true.
Proof.
  induction needle as [|c needle IH]; [by destruct rest|].
  rewrite text_app_cons. simpl. by destruct (ascii_dec c c).
Qed.

Lemma occurs_inb_complete (needle hay : string) :
  occurs_in needle hay -> occurs_inb needle hay = true.
Proof.
  intros (a & b & ->). induction a as [|c a IH].
  - rewrite text_app_nil.
    assert (forall h, String.prefix needle h = true ->
                      occurs_inb needle h = true) as Hp
      by (intros [|? ?] Hh; cbn [occurs_inb]; by rewrite Hh).
    apply Hp, prefix_app.
  - rewrite text_app_cons. cbn [occurs_inb]. rewrite IH. apply orb_true_r.
Qed.

(** A text without the character [c] that starts in front of an occurrence
    of [c] ends in front of it. *)
Lemma prefix_sep (needle rest x : string) (c : ascii) (y : string) :
  has_char c needle = false ->
  needle +:+ rest = x +:+ String c y ->
  exists rest', x = needle +:+ rest'.
Proof.
  revert x. induction needle as [|a needle IH]; intros x Hc H.
  { by exists x. }
  simpl in Hc. apply orb_false_elim in Hc as [Ha Hc].
  apply bool_decide_eq_false in Ha.
  destruct x as [|x0 x]; rewrite ?text_app_cons, ?text_app_nil in H;
    injection H as -> H; [done|].
  destruct (IH x Hc H) as [rest' ->]. by exists rest'.
Qed.

(** A text without the character [c] occurs on one side of an occurrence of
    [c] or on the other. *)
Lemma occurs_sep (needle x : string) (c : ascii) (y : string) :
  has_char c needle = false ->
  occurs_in needle (x +:+ String c y) ->
  occurs_in needle x \/ occurs_in needle y.
Proof.
  intros Hc (a & b & H). revert a H.
  induction x as [|x0 x IH]; intros a H.
  - rewrite text_app_nil in H. destruct a as [|a0 a].
    + rewrite text_app_nil in H. destruct needle as [|n0 needle].
      * left. apply occurs_in_refl.
      * rewrite text_app_cons in H. injection H as -> _. simpl in Hc.
        by rewrite bool_decide_eq_true_2 in Hc.
    + rewrite text_app_cons in H. injection H as _ ->. right. by exists a, b.
  - rewrite text_app_cons in H. destruct a as [|a0 a].
    + rewrite text_app_nil in H. left.
      destruct (prefix_sep needle b (String x0 x) c y Hc) as [rest' ->].
      { by rewrite text_app_cons. }
      exists "", rest'. by rewrite text_app_nil.
    + rewrite text_app_cons in H. injection H as _ H.
      destruct (IH a H) as [Hx|Hy]; [left|by right].
      by apply occurs_in_cons.
Qed.

End TextFacts.

(** * Properties of the widget *)

Module WidgetFacts.
Import JS Widget Text TextFacts.

Section Scripts.

Variable number : Type.
Variable number_to_string : number -> string.
Variable browser : string -> string.
Variable leaflet_takes : JS.value number -> JS.value number -> bool.

Abbreviation value := (JS.value number).
Abbreviation page := (Widget.page number).
Abbreviation M := (Widget.M number).
Abbreviation to_string := (JS.to_string number number_to_string).
Abbreviation markerPopup := (Widget.markerPopup number number_to_string).
Abbreviation placeable := (Widget.placeable number leaflet_takes).
Abbreviation title_ok := (Widget.title_ok number number_to_string).
Abbreviation add_marker :=
  (Widget.add_marker number number_to_string leaflet_takes).
Abbreviation edge_application :=
  (Widget.edge_application number number_to_string leaflet_takes).
Abbreviation edge_part000 :=
  (Widget.edge_part000 number number_to_string leaflet_takes).
Abbreviation done_application :=
  (Widget.done_application number number_to_string leaflet_takes).
Abbreviation done_part000 :=
  (Widget.done_part000 number number_to_string leaflet_takes).
Abbreviation done_callback :=
  (Widget.done_callback number number_to_string leaflet_takes).
Abbreviation reads_back := (Widget.reads_back browser).
Abbreviation click_handler :=
  (Widget.click_handler number number_to_string browser).
Abbreviation ready := (Widget.ready number).
Abbreviation dispatch :=
  (Widget.dispatch number number_to_string browser leaflet_takes).
Abbreviation load := (Widget.load number number_to_string browser leaflet_takes).

(** Unfolding of the monad of callbacks. *)
Ltac run :=
  unfold mbind, M_bind, run_then, mret, M_ret, ret, lift, throw, settle,
    result_bind, result_ret, bind; simpl.

Local Arguments placed : simpl never.
Local Arguments Widget.placeable : simpl never.
Local Arguments Widget.title_ok : simpl never.
Local Arguments Widget.add_marker : simpl never.

Ltac run_in H :=
  unfold mbind, M_bind, run_then, mret, M_ret, ret, lift, throw, settle,
    result_bind, result_ret, bind in H; simpl in H.

(** *** What a callback does to a page *)

Lemma set_markers_app (p : page) (ms1 ms2 : list (marker number)) :
  set_markers number (fun ms => ms ++ ms2)
    (set_markers number (fun ms => ms ++ ms1) p)
  = set_markers number (fun ms => ms ++ ms1 ++ ms2) p.
Proof. unfold set_markers. simpl. by rewrite <- app_assoc. Qed.

Lemma set_markers_nil (p : page) :
  set_markers number (fun ms => ms ++ []) p = p.
Proof. destruct p. unfold set_markers. simpl. by rewrite app_nil_r. Qed.

Lemma alter_last {A} (f : A -> A) (l : list A) (x : A) :
  alter f (length l) (l ++ [x]) = l ++ [f x].
Proof.
  induction l as [|a l IH]; simpl; [done|]. by f_equal.
Qed.

Lemma add_marker_ok (c : value * value) (t : option value) (q : page) :
  placeable c = true ->
  title_ok t = true ->
  add_marker c t q
  = (set_markers number (fun ms => ms ++ [Marker c t None]) q,
     Ok (length (markers q))).
Proof. intros Hc Ht. unfold Widget.add_marker. by rewrite Hc, Ht. Qed.

Lemma edge_application_appends (g : value) :
  appends number (edge_application g).
Proof.
  unfold appends, Widget.edge_application. run.
  destruct (node_prop g "latitude") as [lat| |];
    try (eexists [], _; intros q; by rewrite set_markers_nil).
  destruct (node_prop g "longitude") as [lng| |];
    try (eexists [], _; intros q; by rewrite set_markers_nil).
  unfold Widget.add_marker.
  destruct (placeable (lat, lng) && title_ok None).
  - by eexists _, _.
  - eexists [], _. intros q. by rewrite set_markers_nil.
Qed.

Lemma edge_part000_appends (g : value) :
  appends number (edge_part000 g).
Proof.
  unfold appends, Widget.edge_part000. run.
  destruct (node_prop g "latitude") as [lat| |];
    try (eexists [], _; intros q; by rewrite set_markers_nil).
  destruct (node_prop g "longitude") as [lng| |];
    try (eexists [], _; intros q; by rewrite set_markers_nil).
  destruct (node_prop g "name") as [name| |];
    try (eexists [], _; intros q; by rewrite set_markers_nil).
  unfold Widget.add_marker.
  destruct (placeable (lat, lng) && title_ok (Some name)).
  2:{ eexists [], _. intros q. by rewrite set_markers_nil. }
  destruct (markerPopup g) as [html| |]; try by eexists _, _.
  eexists [Marker (lat, lng) (Some name) (Some html)], (Ok tt). intros q.
  unfold bindPopup, set_markers. simpl. by rewrite alter_last.
Qed.

Lemma for_each_appends (f : value -> M unit) (items : list value) :
  (forall g, appends number (f g)) ->
  appends number (for_each number items f).
Proof.
  intros Hf. induction items as [|g rest IH].
  { exists [], (Ok tt). intros q. simpl. run. by rewrite set_markers_nil. }
  destruct (Hf g) as (a1 & o1 & H1). destruct IH as (a2 & o2 & H2).
  destruct o1 as [[]| |].
  - exists (a1 ++ a2), o2. intros q. simpl. run.
    by rewrite H1, H2, set_markers_app.
  - exists a1, TypeError. intros q. simpl. run. by rewrite H1.
  - exists a1, LibraryError. intros q. simpl. run. by rewrite H1.
Qed.

Lemma done_appends (v : script) (response : value) :
  appends number (done_callback v response).
Proof.
  assert (forall o : result unit, appends number (fun q => (q, o))) as Hstop.
  { intros o. exists [], o. intros q. by rewrite set_markers_nil. }
  destruct v; unfold Widget.done_callback, Widget.done_application,
    Widget.done_part000; run;
    (destruct (get response "data") as [data| |]; try apply Hstop);
    (destruct (get data "raingages") as [rg| |]; try apply Hstop);
    (destruct (get rg "edges") as [edges| |]; try apply Hstop);
    (destruct edges as [| | | | |items|]; try apply Hstop); simpl;
    apply for_each_appends.
  - apply edge_application_appends.
  - apply edge_part000_appends.
Qed.

(** What the click handler does does not depend on the page either. *)
Lemma click_form (d : value) :
  exists F outcome,
    forall q, click_handler d q = (set_html_of number F q, outcome).
Proof.
  unfold Widget.click_handler, concat. run.
  destruct (to_string d) as [s| |].
  - by exists (fun m => alter (fun _ => reads_back ("Gage: " +:+ s)) "gage-name"
                      (alter (fun _ => reads_back "") "gage-name" m)), (Ok false).
  - by exists (alter (fun _ => reads_back "") "gage-name"), TypeError.
  - by exists (alter (fun _ => reads_back "") "gage-name"), LibraryError.
Qed.

Lemma click_keeps_gage_name (d : value) (q : page) :
  is_Some (html_of (click_handler d q).1 !! "gage-name")
  <-> is_Some (html_of q !! "gage-name").
Proof.
  unfold Widget.click_handler, concat. run.
  destruct (to_string d) as [s| |]; simpl;
    by rewrite ?lookup_alter_eq, ?fmap_is_Some.
Qed.

(** *** The page that [ready] sets up *)

Lemma ready_loaded (v : script) (doc : gmap string string) :
  is_Some (doc !! "themap") ->
  loaded v doc (settle number (ready v) (served doc)).
Proof.
  intros [x Hx]. unfold loaded, settle, Widget.ready, create_map. run.
  rewrite Hx. simpl. destruct v; simpl; repeat split; try done;
    by rewrite lookup_delete_ne.
Qed.

Lemma ready_without_container (v : script) (doc : gmap string string) :
  doc !! "themap" = None ->
  settle number (ready v) (served doc) = served doc.
Proof.
  intros Hx. unfold settle, Widget.ready, create_map. run. by rewrite Hx.
Qed.

Lemma dispatch_loaded (v : script) (doc : gmap string string)
    (e : event number) (p : page) :
  loaded v doc p -> loaded v doc (settle number (dispatch v e) p).
Proof.
  intros (Hr & Ht & Hb & Hm & Hg). unfold settle.
  destruct e as [response|d]; simpl.
  - rewrite Hr. destruct (done_appends v response) as (added & outcome & Hd).
    rewrite Hd. by unfold loaded.
  - destruct (click_form d) as (F & res & Hc).
    pose proof (click_keeps_gage_name d p) as Hk.
    rewrite Hc in Hk. simpl in Hk.
    assert (loaded v doc (set_html_of number F p)) as Hl.
    { unfold loaded. simpl. by rewrite Hk. }
    assert (loaded v doc p) as Hp by (by unfold loaded).
    destruct (click_bound p); [|done].
    run. rewrite Hc. by destruct res.
Qed.

Lemma load_loaded (v : script) (doc : gmap string string)
    (evs : list (event number)) :
  is_Some (doc !! "themap") -> loaded v doc (load v doc evs).
Proof.
  intros Hmap. unfold Widget.load.
  pose proof (ready_loaded v doc Hmap) as Hready.
  revert Hready. generalize (settle number (ready v) (served doc)).
  induction evs as [|e evs IH]; intros p Hp; simpl; [done|].
  by apply IH, dispatch_loaded.
Qed.

Lemma dispatch_inert (v : script) (doc : gmap string string)
    (e : event number) :
  settle number (dispatch v e) (served doc) = served doc.
Proof. by destruct e. Qed.

Lemma load_without_container (v : script) (doc : gmap string string)
    (evs : list (event number)) :
  doc !! "themap" = None -> load v doc evs = served doc.
Proof.
  intros Hx. unfold Widget.load. rewrite (ready_without_container v doc Hx).
  induction evs as [|e evs IH]; simpl; [done|]. by rewrite dispatch_inert.
Qed.

(** C2, as the scripts have it: on a page whose document has the map
    container, a page load sends one HTTP GET, whatever the script, the
    reply and the clicks; its URL is the base URL followed by the query
    string. *)
Theorem one_request_per_load (v : script) (doc : gmap string string)
    (evs : list (event number)) :
  is_Some (doc !! "themap") ->
  requests (load v doc evs) = [baseUrl +:+ raingageQry]
  /\ baseUrl +:+ raingageQry
     = "http://127.0.0.1:8000/api/graphql?query={ raingages { edges { node { id latitude longitude code name } } } }".
Proof.
  intros Hmap. split; [|done].
  by destruct (load_loaded v doc evs Hmap) as (Hr & _).
Qed.

(** *** Markers *)

Lemma gage_record_inv (g : value) :
  is_gage_record g = true ->
  exists props n,
    g = VObj props /\ props !! "node" = Some (VObj n)
    /\ scalar (field n "id") = true /\ scalar (field n "name") = true
    /\ scalar (field n "latitude") = true
    /\ scalar (field n "longitude") = true.
Proof.
  destruct g as [| | | | | |props]; simpl; try done.
  destruct (props !! "node") as [[| | | | | |n]|] eqn:Hn; try done.
  intros H. repeat (apply andb_prop in H as [H ?]). by exists props, n.
Qed.

Lemma node_prop_gage (props n : gmap string value) (k : string) :
  props !! "node" = Some (VObj n) ->
  node_prop (VObj props) k = Ok (field n k).
Proof. intros H. unfold node_prop. simpl. by rewrite H. Qed.

Lemma to_string_scalar (v : value) :
  scalar v = true -> exists s, to_string v = Ok s.
Proof. destruct v as [| |[]| | | |]; simpl; try done; eauto. Qed.

Lemma markerPopup_gage (g : value) :
  is_gage_record g = true -> markerPopup g = Ok (popup_html number number_to_string g).
Proof.
  intros (props & n & -> & Hn & Hid & Hname & Hlat & Hlng)%gage_record_inv.
  unfold popup_html, Widget.markerPopup, concat.
  rewrite !(node_prop_gage _ _ _ Hn).
  destruct (to_string_scalar _ Hid) as [sid Eid].
  destruct (to_string_scalar _ Hname) as [sname Ename].
  destruct (to_string_scalar _ Hlat) as [slat Elat].
  destruct (to_string_scalar _ Hlng) as [slng Elng].
  run. by rewrite Eid, Ename, Elat, Elng.
Qed.

Lemma position_placeable (g : value) :
  has_position g = true -> placeable (record_coords g) = true.
Proof.
  unfold has_position. by destruct (record_coords g) as [[] []].
Qed.

(** A loop whose body adds one marker per record adds them in order. *)
Lemma for_each_add (f : value -> M unit) (mk : value -> marker number)
    (ok : value -> bool) (edges : list value) (p : page) :
  (forall g q, ok g = true ->
     f g q = (set_markers number (fun ms => ms ++ [mk g]) q, Ok tt)) ->
  forallb ok edges = true ->
  for_each number edges f p
  = (set_markers number (fun ms => ms ++ (mk <$> edges)) p, Ok tt).
Proof.
  intros Hf. revert p. induction edges as [|g rest IH]; intros p Hall.
  { simpl. run. by rewrite set_markers_nil. }
  simpl in Hall. apply andb_prop in Hall as [Hg Hrest].
  simpl for_each. run. rewrite (Hf g p Hg), (IH _ Hrest).
  by rewrite set_markers_app.
Qed.

Lemma body_application (g : value) (q : page) :
  is_gage_record g && has_position g = true ->
  edge_application g q
  = (set_markers number (fun ms => ms ++ [plain_marker g]) q, Ok tt).
Proof.
  intros [Hg Hpos]%andb_prop. apply position_placeable in Hpos.
  destruct (gage_record_inv g Hg) as (props & n & -> & Hn & _).
  unfold Widget.edge_application. run.
  rewrite !(node_prop_gage _ _ _ Hn). simpl.
  unfold record_coords in Hpos. rewrite Hn in Hpos.
  rewrite add_marker_ok by done. simpl.
  unfold plain_marker, record_coords. by rewrite Hn.
Qed.

Lemma body_part000 (g : value) (q : page) :
  is_gage_record g && has_position g = true ->
  edge_part000 g q
  = (set_markers number
       (fun ms => ms ++ [popup_marker number number_to_string g]) q, Ok tt).
Proof.
  intros [Hg Hpos]%andb_prop. apply position_placeable in Hpos.
  pose proof (markerPopup_gage g Hg) as Hpop.
  destruct (gage_record_inv g Hg) as (props & n & -> & Hn & _ & Hname & _).
  destruct (to_string_scalar _ Hname) as [sname Ename].
  unfold Widget.edge_part000. run.
  rewrite !(node_prop_gage _ _ _ Hn). simpl.
  unfold record_coords in Hpos. rewrite Hn in Hpos.
  rewrite add_marker_ok; [|done|by unfold Widget.title_ok; rewrite Ename].
  simpl. rewrite Hpop. unfold bindPopup, set_markers. simpl.
  rewrite alter_last. simpl. unfold record_coords. by rewrite Hn.
Qed.

Lemma done_markers (v : script) (response : value) (edges : list value)
    (p : page) :
  edges_of response = Ok (VArr edges) ->
  forallb is_gage_record edges = true ->
  forallb has_position edges = true ->
  done_callback v response p
  = (set_markers number
       (fun ms => ms ++ (marker_of number number_to_string v <$> edges)) p,
     Ok tt).
Proof.
  intros Hedges Hall Hpos.
  assert (forallb (fun g => is_gage_record g && has_position g) edges = true)
    as Hboth.
  { apply forallb_forall. intros g Hg.
    rewrite forallb_forall in Hall. rewrite forallb_forall in Hpos.
    by rewrite (Hall g Hg), (Hpos g Hg). }
  unfold edges_of in Hedges. run_in Hedges.
  destruct v; unfold Widget.done_callback, Widget.done_application,
    Widget.done_part000; run;
    destruct (get response "data") as [data| |]; try done;
    destruct (get data "raingages") as [rg| |]; try done;
    destruct (get rg "edges") as [e| |]; try done;
    injection Hedges as ->; simpl.
  - by apply (for_each_add _ _ (fun g => is_gage_record g && has_position g));
      [apply body_application|].
  - by apply (for_each_add _ _ (fun g => is_gage_record g && has_position g));
      [apply body_part000|].
Qed.

Lemma coords_marker_of (v : script) (g : value) :
  coords (marker_of number number_to_string v g) = record_coords g.
Proof.
  destruct v; simpl; [done|].
  destruct g as [| | | | | |props]; try done. simpl.
  by destruct (props !! "node") as [[]|].
Qed.

(** C1, as the scripts have it: when [data.raingages.edges] of the response
    holds E gage records whose latitude and longitude are numbers, the
    [done] callback of either script adds E markers to the map, the i-th at
    the pair [latitude, longitude] of the node of the i-th record; on a
    freshly loaded page with the map container these are all the markers
    there are. *)
Theorem one_marker_per_record (v : script) (response : value)
    (edges : list value) (p : page) (doc : gmap string string) :
  edges_of response = Ok (VArr edges) ->
  forallb is_gage_record edges = true ->
  forallb has_position edges = true ->
  is_Some (doc !! "themap") ->
  let p' := (done_callback v response p).1 in
  (done_callback v response p).2 = Ok tt
  /\ length (markers p') = length (markers p) + length edges
  /\ coords <$> markers p' = (coords <$> markers p) ++ (record_coords <$> edges)
  /\ coords <$> markers (load v doc [Reply response]) = record_coords <$> edges.
Proof.
  intros Hedges Hall Hpos Hmap p'. subst p'.
  assert (forall q, coords <$> markers (done_callback v response q).1
                    = (coords <$> markers q) ++ (record_coords <$> edges)) as Hc.
  { intros q. rewrite (done_markers v response edges q Hedges Hall Hpos).
    simpl. rewrite fmap_app. f_equal. rewrite <- list_fmap_compose.
    apply list_fmap_ext. intros i g _. apply coords_marker_of. }
  rewrite (done_markers v response edges p Hedges Hall Hpos) in *. simpl.
  repeat split.
  - by rewrite length_app, length_fmap.
  - rewrite <- (Hc p).
    by rewrite (done_markers v response edges p Hedges Hall Hpos).
  - unfold Widget.load. simpl. unfold settle at 1.
    destruct Hmap as [x Hx].
    assert (settle number (ready v) (served doc)
            = Page [] [tile_url] [baseUrl +:+ raingageQry]
                   (delete "themap" doc) (installs_handler v) true) as ->.
    { unfold settle, Widget.ready, create_map. run. rewrite Hx.
      by destruct v. }
    simpl. by rewrite Hc.
Qed.

(** *** The popup *)

Lemma field_text_gage (props n : gmap string value) (k : string) :
  props !! "node" = Some (VObj n) ->
  field_text number number_to_string (VObj props) k = to_string (field n k).
Proof.
  intros Hn. unfold field_text. rewrite (node_prop_gage _ _ _ Hn). by run.
Qed.

Ltac no_occurrence H :=
  apply occurs_inb_complete in H; vm_compute in H; discriminate H.

Ltac split_at H :=
  apply occurs_sep in H as [H|H]; [| |reflexivity].

(** C3, as the script has it: the popup of a gage record is the link line
    followed by two lines labelled [Latitude: ], the first with the latitude
    of the node and the second with its longitude; the fixed markup holds no
    [Longitude], so that word occurs in the popup exactly when the text of
    the id, the name, the latitude or the longitude of the node holds it. *)
Theorem popup_labels (g : value) :
  is_gage_record g = true ->
  exists sid sname slat slng html,
    field_text number number_to_string g "id" = Ok sid
    /\ field_text number number_to_string g "name" = Ok sname
    /\ field_text number number_to_string g "latitude" = Ok slat
    /\ field_text number number_to_string g "longitude" = Ok slng
    /\ markerPopup g = Ok html
    /\ html = ("<div><a id='" +:+ sid
                +:+ "' href='#' class='gage-popup' data-name='" +:+ sname
                +:+ "'>" +:+ sname +:+ "</a></div>")
              +:+ ("<div>Latitude: " +:+ slat +:+ "</div>")
              +:+ ("<div>Latitude: " +:+ slng +:+ "</div>")
    /\ (occurs_in "Longitude" html <->
        occurs_in "Longitude" sid \/ occurs_in "Longitude" sname
        \/ occurs_in "Longitude" slat \/ occurs_in "Longitude" slng).
Proof.
  intros (props & n & -> & Hn & Hid & Hname & Hlat & Hlng)%gage_record_inv.
  destruct (to_string_scalar _ Hid) as [sid Eid].
  destruct (to_string_scalar _ Hname) as [sname Ename].
  destruct (to_string_scalar _ Hlat) as [slat Elat].
  destruct (to_string_scalar _ Hlng) as [slng Elng].
  eexists sid, sname, slat, slng, _.
  rewrite !(field_text_gage _ _ _ Hn).
  split; [done|]. split; [done|]. split; [done|]. split; [done|].
  split.
  { unfold Widget.markerPopup, concat.
    rewrite !(node_prop_gage _ _ _ Hn). run.
    rewrite Eid, Ename, Elat, Elng. reflexivity. }
  split.
  { rewrite !text_app_assoc. reflexivity. }
  rewrite !text_app_assoc.
  split.
  - intros H.
    change (occurs_in "Longitude"
      ("<div><a id=" +:+ String "'"
        (sid +:+ String "'"
          (" href='#' class='gage-popup' data-name=" +:+ String "'"
            (sname +:+ String "'"
              ("" +:+ String ">"
                (sname +:+ String "<"
                  ("/a></div><div>Latitude:" +:+ String " "
                    (slat +:+ String "<"
                      ("/div><div>Latitude:" +:+ String " "
                        (slng +:+ String "<" "/div>"))))))))))) in H.
    split_at H; [no_occurrence H|].
    split_at H; [by left|].
    split_at H; [no_occurrence H|].
    split_at H; [by right; left|].
    split_at H; [no_occurrence H|].
    split_at H; [by right; left|].
    split_at H; [no_occurrence H|].
    split_at H; [by right; right; left|].
    split_at H; [no_occurrence H|].
    split_at H; [by right; right; right|].
    no_occurrence H.
  - intros [H|[H|[H|H]]];
      repeat first [by apply occurs_in_app_r | apply occurs_in_app_l].
Qed.

(** *** The code of a gage is never read *)

Lemma get_over_prop (k : string) (f : value -> value) (v : value) :
  f VUndefined = VUndefined ->
  get (over_prop k f v) k = x ← get v k; Ok (f x).
Proof.
  intros Hf. destruct v as [| | | | | |props]; run;
    try done; try (by rewrite Hf).
  rewrite lookup_alter_eq. by destruct (props !! k); simpl; rewrite ?Hf.
Qed.

Lemma get_over_prop_ne (k k' : string) (f : value -> value) (v : value) :
  k <> k' -> get (over_prop k f v) k' = get v k'.
Proof.
  intros Hk. destruct v as [| | | | | |props]; simpl; try done.
  by rewrite lookup_alter_ne.
Qed.

Lemma get_drop_prop_ne (k k' : string) (v : value) :
  k <> k' -> get (drop_prop k v) k' = get v k'.
Proof.
  intros Hk. destruct v as [| | | | | |props]; simpl; try done.
  by rewrite lookup_delete_ne.
Qed.

Lemma node_prop_erased (g : value) (k : string) :
  k <> "code" ->
  node_prop (over_prop "node" (drop_prop "code") g) k = node_prop g k.
Proof.
  intros Hk. unfold node_prop. rewrite get_over_prop by done. run.
  destruct (get g "node") as [n| |]; try done.
  by apply get_drop_prop_ne.
Qed.

Lemma markerPopup_erased (g : value) :
  markerPopup (over_prop "node" (drop_prop "code") g) = markerPopup g.
Proof.
  unfold Widget.markerPopup. by rewrite !node_prop_erased.
Qed.

Lemma for_each_fmap (h : value -> value) (f f' : value -> M unit)
    (items : list value) (p : page) :
  (forall g q, f (h g) q = f' g q) ->
  for_each number (h <$> items) f p = for_each number items f' p.
Proof.
  intros Hf. revert p. induction items as [|g rest IH]; intros p; [done|].
  simpl. run. rewrite Hf.
  destruct (f' g p) as [q [[]| |]]; [apply IH|done|done].
Qed.

Lemma forEach_over_items (h : value -> value) (f f' : value -> M unit)
    (v : value) (p : page) :
  (forall g q, f (h g) q = f' g q) ->
  forEach number (over_items h v) f p = forEach number v f' p.
Proof.
  intros Hf. destruct v; simpl; try done. by apply for_each_fmap.
Qed.

Lemma done_erased (v : script) (response : value) (p : page) :
  done_callback v (erase_code response) p = done_callback v response p.
Proof.
  unfold erase_code.
  destruct v; unfold Widget.done_callback, Widget.done_application,
    Widget.done_part000; run;
    rewrite get_over_prop by done; run;
    (destruct (get response "data") as [data| |]; try done);
    rewrite get_over_prop by done; run;
    (destruct (get data "raingages") as [rg| |]; try done);
    rewrite get_over_prop by done; run;
    (destruct (get rg "edges") as [edges| |]; try done);
    apply forEach_over_items; intros g q;
    unfold Widget.edge_application, Widget.edge_part000;
    by rewrite ?markerPopup_erased, !node_prop_erased.
Qed.

(** C8: two responses that are the same once the [code] of the node of every
    edge is left out get the same treatment: the [done] callback of either
    script ends alike and leaves the same page (markers, coordinates, titles
    and popups included), and so does a whole page load in which one reply
    stands for the other. *)
Theorem code_is_not_observed (v : script) (r1 r2 : value) (p : page)
    (doc : gmap string string) (before after : list (event number)) :
  erase_code r1 = erase_code r2 ->
  done_callback v r1 p = done_callback v r2 p
  /\ load v doc (before ++ Reply r1 :: after)
     = load v doc (before ++ Reply r2 :: after).
Proof.
  intros Heq.
  assert (forall q, done_callback v r1 q = done_callback v r2 q) as Hd.
  { intros q. by rewrite <- (done_erased v r1), <- (done_erased v r2), Heq. }
  split; [apply Hd|].
  unfold Widget.load. rewrite !foldl_app. simpl. unfold settle at 2 5.
  simpl. by rewrite Hd.
Qed.

(** *** The click *)



(** *** The two scripts side by side *)







End Scripts.
End WidgetFacts.

(** * The widget on the sample responses *)

Module WidgetChecks.
Import JS Widget Text Samples.

Example text_of_array :
  to_string Z pretty (VArr [VNum 1%Z; VNull; VStr "a"; VArr [VBool true]])
  = Ok "1,,a,true".
Proof. reflexivity. Qed.

Example text_of_object :
  to_string Z pretty (obj [("name", VStr "a")]) = Ok "[object Object]"
  /\ to_string Z pretty (obj [("toString", VNull)]) = TypeError.
Proof. split; vm_compute; reflexivity. Qed.

Example popup_of_first_gage :
  (markerPopup Z pretty <$> head two_gages)
  = Some (Ok "<div><a id='UmFpbjox' href='#' class='gage-popup' data-name='Desert Station'>Desert Station</a></div><div>Latitude: 31</div><div>Latitude: -110</div>").
Proof. vm_compute. reflexivity. Qed.

(** A [null] node ends the loop of either script where it stands: the marker
    before it stays, the one after it is never made. *)
Example null_node_stops_the_loop :
  (done_application Z pretty leaflet (response_of null_node)
     (served document)).2 = TypeError
  /\ placed (done_application Z pretty leaflet (response_of null_node)
               (served document)).1
     = [(VNum 31%Z, VNum (-110)%Z)]
  /\ (done_part000 Z pretty leaflet (response_of null_node)
        (served document)).2 = TypeError
  /\ placed (done_part000 Z pretty leaflet (response_of null_node)
               (served document)).1
     = [(VNum 31%Z, VNum (-110)%Z)].
Proof. repeat split; vm_compute; reflexivity. Qed.

Lemma one_marker_per_record_witness :
  let response := response_of two_gages in
  let p := served document in
  let p' := (done_callback Z pretty leaflet Part000 response p).1 in
  (done_callback Z pretty leaflet Part000 response p).2 = Ok tt
  /\ length (markers p') = length (markers p) + length two_gages
  /\ coords <$> markers p'
     = (coords <$> markers p) ++ (record_coords <$> two_gages)
  /\ coords <$> markers (load Z pretty browser leaflet Part000 document
                           [Reply response])
     = record_coords <$> two_gages.
Proof.
  apply (WidgetFacts.one_marker_per_record Z pretty browser leaflet Part000
           (response_of two_gages) two_gages (served document) document);
    try (vm_compute; reflexivity).
  by eexists.
Defined.

(** Two gage records, the first with [null] for a latitude: Leaflet throws
    on the first, and the page, map container and all, ends up without a
    marker under either script. *)
Lemma null_latitude_gets_no_marker :
  edges_of (response_of null_latitude) = Ok (VArr null_latitude)
  /\ forallb is_gage_record null_latitude = true
  /\ length null_latitude = 2
  /\ (done_callback Z pretty leaflet Application (response_of null_latitude)
        (load Z pretty browser leaflet Application document [])).2
     = LibraryError
  /\ markers (load Z pretty browser leaflet Application document
                [Reply (response_of null_latitude)]) = []
  /\ markers (load Z pretty browser leaflet Part000 document
                [Reply (response_of null_latitude)]) = [].
Proof. repeat split; vm_compute; reflexivity. Qed.

Lemma one_request_per_load_witness :
  requests (load Z pretty browser leaflet Part000 document
              [Reply (response_of two_gages); Click (VStr "Ridge")])
  = [baseUrl +:+ raingageQry]
  /\ baseUrl +:+ raingageQry
     = "http://127.0.0.1:8000/api/graphql?query={ raingages { edges { node { id latitude longitude code name } } } }".
Proof.
  apply (WidgetFacts.one_request_per_load Z pretty browser leaflet Part000
           document [Reply (response_of two_gages); Click (VStr "Ridge")]).
  by eexists.
Defined.

(** In a document without the map container [L.map] throws before the
    request is made: a page load sends no HTTP GET. *)
Lemma no_container_no_request :
  no_container !! "themap" = None
  /\ requests (load Z pretty browser leaflet Application no_container []) = []
  /\ requests (load Z pretty browser leaflet Part000 no_container []) = []
  /\ requests (load Z pretty browser leaflet Part000 no_container [])
     <> [baseUrl +:+ raingageQry].
Proof. repeat split; try (vm_compute; reflexivity). vm_compute. discriminate. Qed.

Lemma popup_labels_witness :
  exists sid sname slat slng html,
    field_text Z pretty longitude_ridge "id" = Ok sid
    /\ field_text Z pretty longitude_ridge "name" = Ok sname
    /\ field_text Z pretty longitude_ridge "latitude" = Ok slat
    /\ field_text Z pretty longitude_ridge "longitude" = Ok slng
    /\ markerPopup Z pretty longitude_ridge = Ok html
    /\ html = ("<div><a id='" +:+ sid
                +:+ "' href='#' class='gage-popup' data-name='" +:+ sname
                +:+ "'>" +:+ sname +:+ "</a></div>")
              +:+ ("<div>Latitude: " +:+ slat +:+ "</div>")
              +:+ ("<div>Latitude: " +:+ slng +:+ "</div>")
    /\ (occurs_in "Longitude" html <->
        occurs_in "Longitude" sid \/ occurs_in "Longitude" sname
        \/ occurs_in "Longitude" slat \/ occurs_in "Longitude" slng).
Proof.
  apply (WidgetFacts.popup_labels Z pretty longitude_ridge).
  vm_compute; reflexivity.
Defined.

(** The popup of a gage called "Longitude Ridge" spells [Longitude]. *)
Lemma longitude_in_popup :
  is_gage_record longitude_ridge = true
  /\ exists html,
       markerPopup Z pretty longitude_ridge = Ok html
       /\ occurs_in "Longitude" html.
Proof.
  split; [vm_compute; reflexivity|].
  eexists. split; [vm_compute; reflexivity|].
  exists "<div><a id='UmFpbjoz' href='#' class='gage-popup' data-name='",
    " Ridge'>Longitude Ridge</a></div><div>Latitude: 31</div><div>Latitude: -110</div>".
  reflexivity.
Qed.

Lemma code_is_not_observed_witness :
  done_callback Z pretty leaflet Part000 (response_of two_gages)
    (served document)
  = done_callback Z pretty leaflet Part000 (response_of two_gages_recoded)
      (served document)
  /\ load Z pretty browser leaflet Part000 document
       ([Click (VStr "Ridge")] ++ Reply (response_of two_gages) :: [])
     = load Z pretty browser leaflet Part000 document
         ([Click (VStr "Ridge")] ++ Reply (response_of two_gages_recoded) :: []).
Proof.
  apply (WidgetFacts.code_is_not_observed Z pretty browser leaflet Part000
           (response_of two_gages) (response_of two_gages_recoded)).
  vm_compute; reflexivity.
Defined.





End WidgetChecks.

(** * Properties of the scraper as the specification describes it *)

Module ScraperFacts.
Import Scraper.

(** Induction over a document of which every child is known to be fine. *)
Lemma html_nested_ind (P : html -> Prop) :
  (forall t, P (Text t)) ->
  (forall tag attrs kids, Forall P kids -> P (Element tag attrs kids)) ->
  forall h, P h.
Proof.
  intros Htext Helem. fix IH 1. intros [t|tag attrs kids].
  - apply Htext.
  - apply Helem. induction kids as [|k kids IHkids]; constructor.
    + apply IH.
    + apply IHkids.
Qed.

Lemma find_all_count (sel : selector) (h : html) :
  length (find_all sel h) = count_matching sel h.
Proof.
  induction h as [t|tag attrs kids IH] using html_nested_ind; [done|].
  cbn [find_all count_matching]. rewrite length_app. f_equal.
  - by destruct (matches sel _).
  - induction IH as [|k kids Hk _ IHkids]; [done|].
    cbn [flat_map foldr]. by rewrite length_app, Hk, IHkids.
Qed.

Lemma find_all_page_count (sel : selector) (body : list html) :
  length (flat_map (find_all sel) body) = count_page sel body.
Proof.
  induction body as [|h body IH]; [done|].
  cbn [flat_map count_page foldr]. rewrite length_app, find_all_count.
  by rewrite IH.
Qed.

Section Runs.

Variable w : setting.

Lemma scrape_station_attempts (st : scrape_state) (sid : string) :
  attempts (scrape_station w st sid) = attempts st ++ [page_url w sid].
Proof.
  unfold scrape_station.
  destruct (fetch_page w _ _) as [|status body]; [done|].
  by destruct (success status).
Qed.

Lemma scrape_attempts (st : scrape_state) (ids : list string) :
  attempts (scrape w st ids) = attempts st ++ (page_url w <$> ids).
Proof.
  unfold scrape. revert st.
  induction ids as [|sid ids IH]; intros st; simpl.
  { by rewrite app_nil_r. }
  rewrite IH, scrape_station_attempts. by rewrite <- app_assoc.
Qed.

(** C4: the Loader hands on the list as the file has it, and the Scraper
    attempts one page fetch per entry of it, in order, repeated identifiers
    included: N entries, N attempts. *)
Theorem one_fetch_per_entry (fs : gmap string entry) (ids : list string) :
  fs !! stations_path w = Some (StationList ids) ->
  load_stations w fs = Completed ids
  /\ attempts (scrape w (Scrape [] []) ids) = page_url w <$> ids
  /\ length (attempts (scrape w (Scrape [] []) ids)) = length ids
  /\ (writable w (store_path w) = true ->
      exists fs', run_scraper w fs
                  = Completed (fs', scrape w (Scrape [] []) ids)).
Proof.
  intros Hfile. unfold run_scraper, load_stations. rewrite Hfile.
  rewrite scrape_attempts. simpl. rewrite length_fmap.
  repeat split; try done.
  intros ->. eauto.
Qed.

(** C5: a page fetched with success that holds K elements matching the
    marker adds K records to the station's account, one per element and in
    document order, whatever is nested in the elements; an element without
    image, summary or direction gives a record without image URL, with
    empty summary or with empty direction. *)
Theorem one_record_per_marker (st : scrape_state) (sid : string)
    (status : nat) (body : list html) :
  fetch_page w (length (attempts st)) (page_url w sid) = Http status body ->
  success status = true ->
  exists recs,
    records (scrape_station w st sid) = records st ++ recs
    /\ length recs = count_page (entry_marker w) body
    /\ recs = extract w sid <$> flat_map (find_all (entry_marker w)) body
    /\ Forall (fun r => station r = sid) recs
    /\ forall e,
         (nested (image_marker w) e = None ->
          image_url (extract w sid e) = None)
         /\ (nested (summary_marker w) e = None ->
             summary (extract w sid e) = "")
         /\ (nested (direction_marker w) e = None ->
             direction (extract w sid e) = "").
Proof.
  intros Hpage Hok. exists (page_records w sid body).
  unfold scrape_station. rewrite Hpage, Hok. unfold page_records.
  split; [done|]. split.
  { by rewrite length_fmap, find_all_page_count. }
  split; [done|]. split.
  { apply Forall_fmap, Forall_true. done. }
  intros e. unfold extract. simpl.
  by repeat split; intros ->.
Qed.

(** *** The downloader *)

Lemma each_app {A} (f : download_state -> A -> option download_state)
    (st : download_state) (l1 l2 : list A) :
  each f st (l1 ++ l2) = st' ← each f st l1; each f st' l2.
Proof.
  revert st. induction l1 as [|a l1 IH]; intros st; [done|].
  simpl. destruct (f st a) as [st'|]; [|done]. apply IH.
Qed.

Lemma download_record_fetches (st st' : download_state) (r : PhotoRecord) :
  download_record w st r = Some st' ->
  fetches st' = fetches st ++ option_list (usable w r).
Proof.
  unfold download_record. destruct (usable w r) as [url|]; simpl.
  - destruct (fetch_image w _ url) as [bytes|].
    + destruct (writable w _); [|done]. by intros [= <-].
    + by intros [= <-].
  - intros [= <-]. by rewrite app_nil_r.
Qed.

Lemma each_download_fetches (st st' : download_state) (rs : list PhotoRecord) :
  each (download_record w) st rs = Some st' ->
  fetches st' = fetches st ++ omap (usable w) rs.
Proof.
  revert st. induction rs as [|r rs IH]; intros st; simpl.
  { intros [= <-]. by rewrite app_nil_r. }
  destruct (download_record w st r) as [st1|] eqn:Hr; [|done].
  simpl. intros Hrest. rewrite (IH _ Hrest).
  rewrite (download_record_fetches _ _ _ Hr), <- app_assoc. f_equal.
  by destruct (usable w r).
Qed.

(** C6: a record whose image URL is absent, empty or not resolvable to an
    absolute URL is passed over: the Downloader's state stays as it is (no
    fetch is made for it), no error is raised, and the records around it are
    handled as if it were not there; the fetches of a completed run are
    those of the usable records, in order. *)
Theorem unusable_is_skipped (st : download_state) (r : PhotoRecord)
    (pre post : list PhotoRecord) :
  image_url r = None \/ image_url r = Some ""
  \/ (exists u, image_url r = Some u /\ resolve w u = None) ->
  usable w r = None
  /\ download_record w st r = Some st
  /\ each (download_record w) st (r :: post)
     = each (download_record w) st post
  /\ each (download_record w) st (pre ++ r :: post)
     = each (download_record w) st (pre ++ post)
  /\ forall st', each (download_record w) st (pre ++ r :: post) = Some st' ->
       fetches st' = fetches st ++ omap (usable w) (pre ++ post).
Proof.
  intros Hr.
  assert (usable w r = None) as Hu.
  { unfold usable. destruct Hr as [->|[->|(u & -> & Hres)]]; try done.
    by case_decide. }
  assert (forall q, download_record w q r = Some q) as Hskip.
  { intros q. unfold download_record. by rewrite Hu. }
  assert (forall q, each (download_record w) q (r :: post)
                    = each (download_record w) q post) as Hnext.
  { intros q. simpl. by rewrite Hskip. }
  assert (each (download_record w) st (pre ++ r :: post)
          = each (download_record w) st (pre ++ post)) as Hmid.
  { rewrite !each_app.
    destruct (each (download_record w) st pre) as [q|]; [|done].
    apply Hnext. }
  repeat split; try done.
  intros st' Hrun. rewrite Hmid in Hrun. by apply each_download_fetches.
Qed.

(** *** Failed fetches *)

Lemma scrape_records_from (a : list string) (r : list PhotoRecord)
    (ids : list string) :
  records (scrape w (Scrape a r) ids) = r ++ records (scrape w (Scrape a []) ids)
  /\ attempts (scrape w (Scrape a r) ids) = attempts (scrape w (Scrape a []) ids).
Proof.
  unfold scrape. revert a r.
  induction ids as [|sid ids IH]; intros a r; simpl.
  { by rewrite app_nil_r. }
  unfold scrape_station at 2 4 6 8. simpl.
  destruct (fetch_page w (length a) (page_url w sid)) as [|status body].
  - apply IH.
  - destruct (success status); [|apply IH].
    destruct (IH (a ++ [page_url w sid]) (r ++ page_records w sid body))
      as [-> ->].
    destruct (IH (a ++ [page_url w sid]) (page_records w sid body))
      as [-> ->].
    by rewrite <- app_assoc.
Qed.

Lemma scrape_station_failed (st : scrape_state) (sid : string) :
  failed (fetch_page w (length (attempts st)) (page_url w sid)) = true ->
  scrape_station w st sid
  = Scrape (attempts st ++ [page_url w sid]) (records st).
Proof.
  unfold scrape_station, failed.
  destruct (fetch_page w _ _) as [|status body]; [done|].
  by destruct (success status).
Qed.

(** The general half of C7. *)
Lemma failed_station_skipped (fs : gmap string entry)
    (pre : list string) (sid : string) (post : list string) :
  fs !! stations_path w = Some (StationList (pre ++ sid :: post)) ->
  writable w (store_path w) = true ->
  failed (fetch_page w (length pre) (page_url w sid)) = true ->
  let before := scrape w (Scrape [] []) pre in
  records (scrape_station w before sid) = records before
  /\ exists fs' st,
       run_scraper w fs = Completed (fs', st)
       /\ fs' !! store_path w = Some (Metadata (records st))
       /\ attempts st = page_url w <$> (pre ++ sid :: post)
       /\ records st
          = records before
            ++ records (scrape w (Scrape (page_url w <$> (pre ++ [sid])) [])
                          post).
Proof.
  intros Hfile Hwrite Hfail before.
  assert (attempts before = page_url w <$> pre) as Hbefore
    by apply scrape_attempts.
  assert (length (attempts before) = length pre) as Hlen
    by (by rewrite Hbefore, length_fmap).
  assert (scrape_station w before sid
          = Scrape (page_url w <$> (pre ++ [sid])) (records before)) as Hstep.
  { rewrite scrape_station_failed by (by rewrite Hlen).
    by rewrite Hbefore, fmap_app. }
  split; [by rewrite Hstep|].
  unfold run_scraper, load_stations. rewrite Hfile, Hwrite.
  eexists _, _. split; [done|].
  split; [by rewrite lookup_insert_eq|].
  split; [apply scrape_attempts|].
  unfold scrape at 1. rewrite foldl_app. simpl.
  fold (scrape w (Scrape [] []) pre). fold before. rewrite Hstep.
  apply scrape_records_from.
Qed.

End Runs.
End ScraperFacts.

(** * The scraper in the scenario of the specification *)

Module ScraperChecks.
Import Scraper Scenario.

(** C7: a station whose page cannot be fetched adds no record; the run goes
    on with the stations after it and completes, the MetadataStore holding
    what the other stations gave.  In the scenario the store ends up with
    the two records of "101", one with its image URL and one without. *)
Theorem failed_station_contributes_nothing :
  (forall (w : setting) (fs : gmap string entry) (pre : list string)
          (sid : string) (post : list string),
     fs !! stations_path w = Some (StationList (pre ++ sid :: post)) ->
     writable w (store_path w) = true ->
     failed (fetch_page w (length pre) (page_url w sid)) = true ->
     let before := scrape w (Scrape [] []) pre in
     records (scrape_station w before sid) = records before
     /\ exists fs' st,
          run_scraper w fs = Completed (fs', st)
          /\ fs' !! store_path w = Some (Metadata (records st))
          /\ attempts st = page_url w <$> (pre ++ sid :: post)
          /\ records st
             = records before
               ++ records (scrape w (Scrape (page_url w <$> (pre ++ [sid])) [])
                             post))
  /\ run_scraper world files
     = Completed (<["metadata.json" := Metadata [with_photo; without_photo]]> files,
                  Scrape [base +:+ "101"; base +:+ "205"]
                         [with_photo; without_photo]).
Proof.
  split; [apply ScraperFacts.failed_station_skipped|].
  vm_compute. reflexivity.
Qed.

Lemma failed_station_witness :
  let before := scrape world (Scrape [] []) ["101"] in
  records (scrape_station world before "205") = records before
  /\ exists fs' st,
       run_scraper world files = Completed (fs', st)
       /\ fs' !! store_path world = Some (Metadata (records st))
       /\ attempts st = page_url world <$> (["101"] ++ "205" :: [])
       /\ records st
          = records before
            ++ records (scrape world
                          (Scrape (page_url world <$> (["101"] ++ ["205"])) [])
                          []).
Proof.
  apply (proj1 failed_station_contributes_nothing world files ["101"] "205" []);
    vm_compute; reflexivity.
Defined.

Lemma one_fetch_per_entry_witness :
  load_stations world files_repeated = Completed ["101"; "205"; "101"]
  /\ attempts (scrape world (Scrape [] []) ["101"; "205"; "101"])
     = page_url world <$> ["101"; "205"; "101"]
  /\ length (attempts (scrape world (Scrape [] []) ["101"; "205"; "101"]))
     = length ["101"; "205"; "101"]
  /\ (writable world (store_path world) = true ->
      exists fs', run_scraper world files_repeated
                  = Completed (fs', scrape world (Scrape [] [])
                                      ["101"; "205"; "101"])).
Proof.
  apply (ScraperFacts.one_fetch_per_entry world files_repeated
           ["101"; "205"; "101"]).
  vm_compute; reflexivity.
Defined.

Lemma one_record_per_marker_witness :
  exists recs,
    records (scrape_station world (Scrape [] []) "101") = [] ++ recs
    /\ length recs = count_page (entry_marker world) page_101
    /\ recs = extract world "101"
              <$> flat_map (find_all (entry_marker world)) page_101
    /\ Forall (fun r => station r = "101") recs
    /\ forall e,
         (nested (image_marker world) e = None ->
          image_url (extract world "101" e) = None)
         /\ (nested (summary_marker world) e = None ->
             summary (extract world "101" e) = "")
         /\ (nested (direction_marker world) e = None ->
             direction (extract world "101" e) = "").
Proof.
  apply (ScraperFacts.one_record_per_marker world (Scrape [] []) "101" 200
           page_101); vm_compute; reflexivity.
Defined.

Lemma unusable_is_skipped_witness :
  usable world without_photo = None
  /\ download_record world (Download files []) without_photo
     = Some (Download files [])
  /\ each (download_record world) (Download files []) (without_photo :: [])
     = each (download_record world) (Download files []) []
  /\ each (download_record world) (Download files [])
       ([with_photo] ++ without_photo :: [])
     = each (download_record world) (Download files []) ([with_photo] ++ [])
  /\ forall st',
       each (download_record world) (Download files [])
         ([with_photo] ++ without_photo :: []) = Some st' ->
       fetches st' = [] ++ omap (usable world) ([with_photo] ++ []).
Proof.
  apply (ScraperFacts.unusable_is_skipped world (Download files [])
           without_photo [with_photo] []).
  left. reflexivity.
Defined.

(** The two pipelines one after the other in the scenario: one image is
    requested and lands in the directory of "101" under the last segment of
    its URL. *)
Example scenario_download :
  exists fs' st,
    run_scraper world files = Completed (fs', st)
    /\ run_downloader world fs'
       = Completed
           (Download (<["images/101/photo1.jpg" := Image "JFIF"]>
                        (<["images/101" := Directory]> fs'))
                     ["http://photos.example/img/photo1.jpg"]).
Proof.
  eexists _, _. split; [vm_compute; reflexivity|].
  vm_compute. reflexivity.
Qed.

End ScraperChecks.

(** * Where the callbacks stop, and what they leave alone *)

Module OutcomeFacts.
Import JS Widget Text TextFacts Outcomes.

Section Callbacks.

Variable number : Type.
Variable number_to_string : number -> string.
Variable browser : string -> string.
Variable leaflet_takes : JS.value number -> JS.value number -> bool.

Abbreviation value := (JS.value number).
Abbreviation page := (Widget.page number).
Abbreviation M := (Widget.M number).
Abbreviation to_string := (JS.to_string number number_to_string).
Abbreviation markerPopup := (Widget.markerPopup number number_to_string).
Abbreviation field_text := (Widget.field_text number number_to_string).
Abbreviation popup_marker := (Widget.popup_marker number number_to_string).
Abbreviation placeable := (Widget.placeable number leaflet_takes).
Abbreviation title_ok := (Widget.title_ok number number_to_string).
Abbreviation add_marker :=
  (Widget.add_marker number number_to_string leaflet_takes).
Abbreviation edge_application :=
  (Widget.edge_application number number_to_string leaflet_takes).
Abbreviation edge_part000 :=
  (Widget.edge_part000 number number_to_string leaflet_takes).
Abbreviation done_application :=
  (Widget.done_application number number_to_string leaflet_takes).
Abbreviation done_part000 :=
  (Widget.done_part000 number number_to_string leaflet_takes).
Abbreviation done_callback :=
  (Widget.done_callback number number_to_string leaflet_takes).
Abbreviation click_handler :=
  (Widget.click_handler number number_to_string browser).
Abbreviation ready := (Widget.ready number).
Abbreviation dispatch :=
  (Widget.dispatch number number_to_string browser leaflet_takes).
Abbreviation load := (Widget.load number number_to_string browser leaflet_takes).
Abbreviation convertible := (Outcomes.convertible number number_to_string).
Abbreviation lands := (Outcomes.lands number leaflet_takes).
Abbreviation lands_titled :=
  (Outcomes.lands_titled number number_to_string leaflet_takes).
Abbreviation passes := (Outcomes.passes number number_to_string leaflet_takes).
Abbreviation stranded :=
  (Outcomes.stranded number number_to_string leaflet_takes).
Abbreviation ending_application :=
  (Outcomes.ending_application number leaflet_takes).
Abbreviation ending_part000 :=
  (Outcomes.ending_part000 number number_to_string leaflet_takes).
Abbreviation edge_of :=
  (Outcomes.edge_of number number_to_string leaflet_takes).

Ltac run :=
  unfold mbind, M_bind, run_then, mret, M_ret, ret, lift, throw, settle,
    result_bind, result_ret, bind; simpl.

Local Arguments Widget.placeable : simpl never.
Local Arguments Widget.title_ok : simpl never.
Local Arguments Widget.add_marker : simpl never.

(** *** Edges that can be read *)

(** Whether a property of the node can be read does not depend on the
    property. *)
Lemma node_prop_readable (g : value) (k : string) :
  readable g = true -> exists x, node_prop g k = Ok x.
Proof.
  unfold readable, node_prop.
  destruct g as [| | | | | |props]; simpl; try done.
  destruct (props !! "node") as [[]|]; simpl; try done; eauto.
Qed.

Lemma node_prop_unreadable (g : value) (k : string) :
  readable g = false -> node_prop g k = TypeError.
Proof.
  unfold readable, node_prop.
  destruct g as [| | | | | |props]; simpl; try done.
  destruct (props !! "node") as [[]|]; simpl; done.
Qed.

Lemma readable_coords (g a b : value) :
  node_prop g "latitude" = Ok a ->
  node_prop g "longitude" = Ok b ->
  record_coords g = (a, b).
Proof.
  unfold node_prop, record_coords.
  destruct g as [| | | | | |props]; simpl; try done.
  destruct (props !! "node") as [[]|]; simpl; try done;
    by intros [= <-] [= <-].
Qed.

Lemma readable_popup_marker (g : value) :
  readable g = true ->
  popup_marker g
  = Marker (record_coords g) (Some (name_of g))
           (Some (popup_html number number_to_string g)).
Proof.
  unfold readable, name_of, node_prop, Widget.popup_marker.
  destruct g as [| | | | | |props]; simpl; try done.
  destruct (props !! "node") as [[]|]; simpl; done.
Qed.

(** *** Exceptions of the script's own *)

Lemma get_own (v : value) (k : string) : get v k <> LibraryError.
Proof. by destruct v. Qed.

Lemma node_prop_own (g : value) (k : string) : node_prop g k <> LibraryError.
Proof.
  unfold node_prop. pose proof (get_own g "node") as Hg.
  destruct (get g "node") as [n| |]; simpl; try done. apply get_own.
Qed.

Lemma sequence_own {A} (rs : list (result A)) :
  Forall (fun r => r <> LibraryError) rs -> sequence rs <> LibraryError.
Proof.
  induction 1 as [|r rs Hr _ IH]; simpl; [done|].
  destruct r; simpl; try done. by destruct (sequence rs).
Qed.

Lemma to_string_own (v : value) : to_string v <> LibraryError.
Proof.
  revert v. fix IH 1. intros [| |[]|n|s|items|props]; simpl; try done.
  - assert (Forall (fun r : result string => r <> LibraryError)
              (List.map (fun x => match x with
                                  | VUndefined | VNull => Ok ""
                                  | _ => to_string x
                                  end) items)) as Hall.
    { induction items as [|x items IHitems]; simpl; constructor; [|done].
      pose proof (IH x) as Hx. by destruct x. }
    apply sequence_own in Hall. by destruct (sequence _).
  - by destruct (props !! "toString").
Qed.

Lemma markerPopup_own (g : value) : markerPopup g <> LibraryError.
Proof.
  unfold Widget.markerPopup, concat.
  unfold mbind, result_bind, bind.
  pose proof (node_prop_own g "id") as Hid.
  pose proof (node_prop_own g "name") as Hname.
  pose proof (node_prop_own g "latitude") as Hlat.
  pose proof (node_prop_own g "longitude") as Hlng.
  destruct (node_prop g "id") as [xid| |]; try done.
  pose proof (to_string_own xid).
  destruct (to_string xid) as [sid| |]; try done.
  destruct (node_prop g "name") as [xname| |]; try done.
  pose proof (to_string_own xname).
  destruct (to_string xname) as [sname| |]; try done.
  destruct (node_prop g "latitude") as [xlat| |]; try done.
  pose proof (to_string_own xlat).
  destruct (to_string xlat) as [slat| |]; try done.
  destruct (node_prop g "longitude") as [xlng| |]; try done.
  pose proof (to_string_own xlng).
  by destruct (to_string xlng) as [slng| |].
Qed.

(** *** One turn of each loop *)

Lemma edge_application_lands (g : value) (q : page) :
  lands g = true ->
  edge_application g q
  = (set_markers number (fun ms => ms ++ [plain_marker g]) q, Ok tt).
Proof.
  intros [Hg Hc]%andb_prop.
  destruct (node_prop_readable g "latitude" Hg) as [a Ha].
  destruct (node_prop_readable g "longitude" Hg) as [b Hb].
  rewrite (readable_coords g a b Ha Hb) in Hc.
  unfold Widget.edge_application. run. rewrite Ha, Hb. simpl.
  rewrite WidgetFacts.add_marker_ok by done. simpl.
  unfold plain_marker. by rewrite (readable_coords g a b Ha Hb).
Qed.

Lemma edge_application_refused (g : value) (q : page) :
  readable g = true ->
  lands g = false ->
  edge_application g q = (q, LibraryError).
Proof.
  intros Hg Hl. unfold Outcomes.lands in Hl. rewrite Hg in Hl. simpl in Hl.
  destruct (node_prop_readable g "latitude" Hg) as [a Ha].
  destruct (node_prop_readable g "longitude" Hg) as [b Hb].
  rewrite (readable_coords g a b Ha Hb) in Hl.
  unfold Widget.edge_application. run. rewrite Ha, Hb. simpl.
  unfold Widget.add_marker. by rewrite Hl.
Qed.

Lemma edge_application_unreadable (g : value) (q : page) :
  readable g = false -> edge_application g q = (q, TypeError).
Proof.
  intros Hg. unfold Widget.edge_application. run.
  by rewrite (node_prop_unreadable g "latitude" Hg).
Qed.

Lemma edge_part000_passes (g : value) (q : page) :
  passes g = true ->
  edge_part000 g q
  = (set_markers number (fun ms => ms ++ [popup_marker g]) q, Ok tt).
Proof.
  intros [[[Hg Hc]%andb_prop Ht]%andb_prop Hp]%andb_prop.
  destruct (node_prop_readable g "latitude" Hg) as [a Ha].
  destruct (node_prop_readable g "longitude" Hg) as [b Hb].
  destruct (node_prop_readable g "name" Hg) as [nm Hnm].
  rewrite (readable_popup_marker g Hg).
  rewrite (readable_coords g a b Ha Hb) in *.
  unfold name_of in *. rewrite Hnm in *.
  unfold Outcomes.convertible, popup_html in *.
  unfold Widget.edge_part000. run. rewrite Ha, Hb, Hnm. simpl.
  rewrite WidgetFacts.add_marker_ok by done. simpl.
  destruct (markerPopup g) as [html| |]; try done.
  unfold bindPopup, set_markers. simpl.
  by rewrite WidgetFacts.alter_last.
Qed.

Lemma edge_part000_stranded (g : value) (q : page) :
  lands_titled g = true ->
  convertible g = false ->
  edge_part000 g q
  = (set_markers number (fun ms => ms ++ [titled_marker g]) q, TypeError).
Proof.
  intros [[Hg Hc]%andb_prop Ht]%andb_prop Hp.
  destruct (node_prop_readable g "latitude" Hg) as [a Ha].
  destruct (node_prop_readable g "longitude" Hg) as [b Hb].
  destruct (node_prop_readable g "name" Hg) as [nm Hnm].
  unfold titled_marker. rewrite (readable_coords g a b Ha Hb) in *.
  unfold name_of in *. rewrite Hnm in *.
  unfold Outcomes.convertible in Hp.
  assert (markerPopup g = TypeError) as Hpop.
  { pose proof (markerPopup_own g).
    by destruct (markerPopup g) as [html| |]. }
  unfold Widget.edge_part000. run. rewrite Ha, Hb, Hnm. simpl.
  rewrite WidgetFacts.add_marker_ok by done. simpl. by rewrite Hpop.
Qed.

Lemma edge_part000_refused (g : value) (q : page) :
  readable g = true ->
  lands_titled g = false ->
  edge_part000 g q = (q, LibraryError).
Proof.
  intros Hg Hl. unfold Outcomes.lands_titled in Hl. rewrite Hg in Hl.
  simpl in Hl.
  destruct (node_prop_readable g "latitude" Hg) as [a Ha].
  destruct (node_prop_readable g "longitude" Hg) as [b Hb].
  destruct (node_prop_readable g "name" Hg) as [nm Hnm].
  rewrite (readable_coords g a b Ha Hb) in Hl.
  unfold name_of in Hl. rewrite Hnm in Hl.
  unfold Widget.edge_part000. run. rewrite Ha, Hb, Hnm. simpl.
  unfold Widget.add_marker. by rewrite Hl.
Qed.

Lemma edge_part000_unreadable (g : value) (q : page) :
  readable g = false -> edge_part000 g q = (q, TypeError).
Proof.
  intros Hg. unfold Widget.edge_part000. run.
  by rewrite (node_prop_unreadable g "latitude" Hg).
Qed.

(** *** The loops *)

Lemma ending_application_cons (g : value) (rest : list value) :
  ending_application (g :: rest)
  = if lands g then ending_application rest
    else if readable g then LibraryError else TypeError.
Proof. unfold Outcomes.ending_application. simpl. by destruct (lands g). Qed.

Lemma for_each_application (items : list value) (p : page) :
  for_each number items edge_application p
  = (set_markers number
       (fun ms => ms ++ (plain_marker <$> leading lands items)) p,
     ending_application items).
Proof.
  revert p. induction items as [|g rest IH]; intros p.
  { simpl. run. by rewrite WidgetFacts.set_markers_nil. }
  rewrite ending_application_cons. cbn [for_each leading]. run.
  destruct (lands g) eqn:Hl.
  - rewrite (edge_application_lands g p Hl), IH.
    by rewrite WidgetFacts.set_markers_app.
  - destruct (readable g) eqn:Hg.
    + rewrite (edge_application_refused g p Hg Hl). simpl.
      by rewrite WidgetFacts.set_markers_nil.
    + rewrite (edge_application_unreadable g p Hg). simpl.
      by rewrite WidgetFacts.set_markers_nil.
Qed.

Lemma stranded_cons (g : value) (rest : list value) :
  stranded (g :: rest)
  = if passes g then stranded rest
    else if lands_titled g then [titled_marker g] else [].
Proof. unfold Outcomes.stranded. simpl. by destruct (passes g). Qed.

Lemma ending_part000_cons (g : value) (rest : list value) :
  ending_part000 (g :: rest)
  = if passes g then ending_part000 rest
    else if readable g && negb (lands_titled g) then LibraryError
         else TypeError.
Proof. unfold Outcomes.ending_part000. simpl. by destruct (passes g). Qed.

Lemma for_each_part000 (items : list value) (p : page) :
  for_each number items edge_part000 p
  = (set_markers number
       (fun ms => ms ++ (popup_marker <$> leading passes items)
                     ++ stranded items) p,
     ending_part000 items).
Proof.
  revert p. induction items as [|g rest IH]; intros p.
  { simpl. run. by rewrite WidgetFacts.set_markers_nil. }
  rewrite stranded_cons, ending_part000_cons. cbn [for_each leading]. run.
  destruct (passes g) eqn:Hp.
  { rewrite (edge_part000_passes g p Hp), IH.
    by rewrite WidgetFacts.set_markers_app. }
  destruct (readable g) eqn:Hg; [destruct (lands_titled g) eqn:Hl|].
  - assert (convertible g = false) as Hc.
    { unfold Outcomes.passes in Hp. by rewrite Hl in Hp. }
    by rewrite (edge_part000_stranded g p Hl Hc).
  - rewrite (edge_part000_refused g p Hg Hl). simpl.
    by rewrite WidgetFacts.set_markers_nil.
  - assert (lands_titled g = false) as ->
      by (unfold Outcomes.lands_titled; by rewrite Hg).
    rewrite (edge_part000_unreadable g p Hg). simpl.
    by rewrite WidgetFacts.set_markers_nil.
Qed.

(** *** The [done] callbacks *)

Lemma done_unfold (v : script) (response : value) (p : page) :
  done_callback v response p
  = match edges_of response with
    | Ok edges => forEach number edges (edge_of v) p
    | TypeError => (p, TypeError)
    | LibraryError => (p, LibraryError)
    end.
Proof.
  unfold edges_of.
  destruct v; unfold Widget.done_callback, Widget.done_application,
    Widget.done_part000; run;
    (destruct (get response "data") as [data| |]; try done);
    (destruct (get data "raingages") as [rg| |]; try done);
    by destruct (get rg "edges").
Qed.

(** X1: on an array of edges, [src/static/js/application.js] places a
    marker, untitled and without popup, for each edge up to the first whose
    node cannot be read or whose coordinates Leaflet does not take, and
    nothing after it; it ends without error exactly when every edge lands,
    with its own [TypeError] at a node that cannot be read and with
    Leaflet's exception at coordinates that are not taken. *)
Theorem application_stops_at_first_failure (response : value)
    (items : list value) (p : page) :
  edges_of response = Ok (VArr items) ->
  done_application response p
  = (set_markers number
       (fun ms => ms ++ (plain_marker <$> leading lands items)) p,
     ending_application items)
  /\ placed (done_application response p).1
     = placed p ++ (record_coords <$> leading lands items).
Proof.
  intros Hedges.
  pose proof (done_unfold Application response p) as Hd.
  simpl in Hd. rewrite Hd, Hedges. simpl.
  rewrite for_each_application. split; [done|].
  unfold placed. simpl. rewrite fmap_app. f_equal.
  by rewrite <- list_fmap_compose.
Qed.

(** X2: on an array of edges, the second script places a marker with title
    and popup for each edge up to the first that does not pass: whose node
    cannot be read, whose coordinates or title Leaflet does not take, or
    whose popup cannot be written.  When it is the popup that fails, the
    marker of that edge is on the map already, titled and without popup;
    nothing is placed after it.  The callback ends without error exactly
    when every edge passes, with Leaflet's exception when the marker did
    not land and with a [TypeError] otherwise. *)
Theorem part000_stops_at_failure (response : value)
    (items : list value) (p : page) :
  edges_of response = Ok (VArr items) ->
  done_part000 response p
  = (set_markers number
       (fun ms => ms ++ (popup_marker <$> leading passes items)
                     ++ stranded items) p,
     ending_part000 items).
Proof.
  intros Hedges.
  pose proof (done_unfold Part000 response p) as Hd.
  simpl in Hd. rewrite Hd, Hedges. simpl.
  apply for_each_part000.
Qed.

(** X3: a reply without [data], [data.raingages] or an array under
    [data.raingages.edges] makes the callback of either script throw and
    leaves the page as it was. *)
Theorem malformed_reply_changes_nothing (v : script) (response : value)
    (p : page) :
  edges_of response = TypeError
  \/ (exists e, edges_of response = Ok e /\ forall items, e <> VArr items) ->
  done_callback v response p = (p, TypeError).
Proof.
  intros H. rewrite done_unfold.
  destruct H as [->|(e & -> & He)]; [done|].
  destruct e; simpl; try done. by destruct (He items).
Qed.

(** X4: whatever the reply, the callback of either script only adds markers
    behind those that are on the map: which ones it adds and how it ends is
    settled by the reply alone, the markers that were there stay as they
    were, and tile layers, requests and click handler are not touched. *)
Theorem done_only_appends_markers (v : script) (response : value) :
  exists added outcome,
    forall p,
      let p' := (done_callback v response p).1 in
      (done_callback v response p).2 = outcome
      /\ markers p' = markers p ++ added
      /\ tiles p' = tiles p /\ requests p' = requests p
      /\ click_bound p' = click_bound p.
Proof.
  destruct (WidgetFacts.done_appends number number_to_string leaflet_takes
              v response) as (added & outcome & Hd).
  exists added, outcome. intros p. simpl. by rewrite Hd.
Qed.

(** *** Clicks *)

(** X11: a reply and a click can come in either order: the page is the
    same. *)
Theorem reply_and_click_commute (v : script) (response d : value) (p : page) :
  settle number (dispatch v (Click d)) (settle number (dispatch v (Reply response)) p)
  = settle number (dispatch v (Reply response)) (settle number (dispatch v (Click d)) p).
Proof.
  destruct (WidgetFacts.done_appends number number_to_string leaflet_takes
              v response) as (added & outcome & Hd).
  destruct (WidgetFacts.click_form number number_to_string browser d)
    as (F & res & Hc).
  unfold settle. simpl.
  assert (forall q, requests (click_handler d q).1 = requests q) as Hreq
    by (intros q; by rewrite Hc).
  destruct (requests p) as [|url rest] eqn:Hr.
  - simpl. destruct (click_bound p); simpl; [|by rewrite Hr].
    run. rewrite Hc. destruct res; simpl; by rewrite Hr.
  - rewrite Hd. simpl. destruct (click_bound p); simpl; [|by rewrite Hr, Hd].
    run. rewrite !Hc. destruct res; simpl; by rewrite Hr, Hd.
Qed.

(** *** The page load *)

(** X6: on a document with the map container a loaded page has, whatever
    the reply and the clicks, the map with the one tile layer the [ready]
    function gave it, and the click handler if the script is the second and
    not otherwise.  On a document without the container [L.map] throws and
    that is all: no tile layer, no request, no click handler, and whatever
    comes after leaves the page as it was served. *)
Theorem one_tile_layer (v : script) (doc : gmap string string)
    (evs : list (event number)) :
  (is_Some (doc !! "themap") ->
   map_made (load v doc evs) = true
   /\ tiles (load v doc evs) = [tile_url]
   /\ click_bound (load v doc evs) = installs_handler v)
  /\ (doc !! "themap" = None -> load v doc evs = served doc).
Proof.
  split.
  - intros Hmap.
    by destruct (WidgetFacts.load_loaded number number_to_string browser
                   leaflet_takes v doc evs Hmap) as (_ & Ht & Hb & Hm & _).
  - apply WidgetFacts.load_without_container.
Qed.

(** X7: when no text can be made of the data name of the clicked element,
    the handler has emptied [#gage-name] before it throws: the element is
    left empty and [false] is not returned. *)
Theorem click_without_text (d : value) (old : string) (p : page) :
  to_string d = TypeError ->
  html_of p !! "gage-name" = Some old ->
  click_handler d p
  = (set_html_of number (insert "gage-name" "") p, TypeError)
  /\ html_of (click_handler d p).1 !! "gage-name" = Some "".
Proof.
  intros Hd Hold. unfold Widget.click_handler, concat. run. rewrite Hd.
  simpl. split; [|by rewrite lookup_alter_eq, Hold].
  unfold set_html_of. simpl. do 2 f_equal.
  apply map_eq. intros k. rewrite lookup_alter, lookup_insert.
  case_decide; [|done]. by rewrite Hold.
Qed.

(** X8: in a document without [#gage-name] a click changes nothing; the
    handler still answers [false] when text can be made of the data name. *)
Theorem click_without_target (d : value) (p : page) :
  html_of p !! "gage-name" = None ->
  (click_handler d p).1 = p
  /\ forall s, to_string d = Ok s -> click_handler d p = (p, Ok false).
Proof.
  intros Hnone.
  assert (forall x : string, alter (fun _ => x) "gage-name" (html_of p)
                             = html_of p) as Halter.
  { intros x. apply map_eq. intros k. rewrite lookup_alter.
    case_decide as Hk; [|done]. rewrite Hnone. by rewrite <- Hk, Hnone. }
  unfold Widget.click_handler, concat. run.
  destruct (to_string d) as [s| |]; simpl; unfold set_html_of; simpl;
    rewrite !Halter; destruct p; by split.
Qed.

(** *** The popup *)

Lemma field_text_inv (g : value) (k s : string) :
  field_text g k = Ok s ->
  exists x, node_prop g k = Ok x /\ to_string x = Ok s.
Proof.
  unfold Widget.field_text. run.
  destruct (node_prop g k) as [x| |]; try done. eauto.
Qed.

(** X9: [markerPopup] returns exactly when the id, the name, the latitude
    and the longitude of the node can be read and text can be made of each;
    what it returns is then the link line and the two lines labelled
    [Latitude: ] around those four texts.  In every other case it throws. *)
Theorem markerPopup_returns_iff (g : value) (html : string) :
  markerPopup g = Ok html <->
  exists sid sname slat slng,
    field_text g "id" = Ok sid
    /\ field_text g "name" = Ok sname
    /\ field_text g "latitude" = Ok slat
    /\ field_text g "longitude" = Ok slng
    /\ html = ("<div><a id='" +:+ sid
                +:+ "' href='#' class='gage-popup' data-name='" +:+ sname
                +:+ "'>" +:+ sname +:+ "</a></div>")
              +:+ ("<div>Latitude: " +:+ slat +:+ "</div>")
              +:+ ("<div>Latitude: " +:+ slng +:+ "</div>").
Proof.
  split.
  - unfold Widget.markerPopup, Widget.field_text, concat. run.
    destruct (node_prop g "id") as [xid| |]; try done.
    destruct (to_string xid) as [sid| |]; try done.
    destruct (node_prop g "name") as [xname| |]; try done.
    destruct (to_string xname) as [sname| |]; try done.
    destruct (node_prop g "latitude") as [xlat| |]; try done.
    destruct (to_string xlat) as [slat| |]; try done.
    destruct (node_prop g "longitude") as [xlng| |]; try done.
    destruct (to_string xlng) as [slng| |]; try done.
    intros [= <-]. exists sid, sname, slat, slng.
    do 4 (split; [done|]).
    rewrite !text_app_assoc. reflexivity.
  - intros (sid & sname & slat & slng & Hid & Hname & Hlat & Hlng & ->).
    destruct (field_text_inv _ _ _ Hid) as (xid & Eid & Tid).
    destruct (field_text_inv _ _ _ Hname) as (xname & Ename & Tname).
    destruct (field_text_inv _ _ _ Hlat) as (xlat & Elat & Tlat).
    destruct (field_text_inv _ _ _ Hlng) as (xlng & Elng & Tlng).
    unfold Widget.markerPopup, concat. run.
    rewrite Eid, Tid, Ename, Tname, Elat, Tlat, Elng, Tlng.
    f_equal. rewrite !text_app_assoc. reflexivity.
Qed.

(** *** Properties the scripts do not read *)

Lemma node_prop_without (g : value) (k k' : string) :
  k <> k' ->
  node_prop (over_prop "node" (drop_prop k) g) k' = node_prop g k'.
Proof.
  intros Hk. unfold node_prop.
  rewrite WidgetFacts.get_over_prop by done. run.
  destruct (get g "node") as [n| |]; try done.
  by apply WidgetFacts.get_drop_prop_ne.
Qed.

Lemma done_without (v : script) (k : string) (response : value) (p : page) :
  (forall g q, edge_of v (over_prop "node" (drop_prop k) g) q = edge_of v g q) ->
  done_callback v (erase_node_prop k response) p = done_callback v response p.
Proof.
  intros Hedge. rewrite !done_unfold. unfold erase_node_prop, edges_of. run.
  rewrite WidgetFacts.get_over_prop by done. run.
  destruct (get response "data") as [data| |]; try done.
  rewrite WidgetFacts.get_over_prop by done. run.
  destruct (get data "raingages") as [rg| |]; try done.
  rewrite WidgetFacts.get_over_prop by done. run.
  destruct (get rg "edges") as [edges| |]; try done.
  by apply WidgetFacts.forEach_over_items.
Qed.

(** X10: [src/static/js/application.js] reads nothing of a node but its
    latitude and its longitude, the second script nothing but those, the id
    and the name: a reply with any other property taken out of every node
    is treated as the reply itself. *)
Theorem unread_properties (k : string) (response : value) (p : page) :
  k <> "latitude" -> k <> "longitude" ->
  done_application (erase_node_prop k response) p = done_application response p
  /\ (k <> "id" -> k <> "name" ->
      done_part000 (erase_node_prop k response) p = done_part000 response p).
Proof.
  intros Hlat Hlng. split.
  - apply (done_without Application). intros g q. simpl.
    unfold Widget.edge_application. by rewrite !node_prop_without.
  - intros Hid Hname. apply (done_without Part000). intros g q. simpl.
    unfold Widget.edge_part000, Widget.markerPopup.
    by rewrite !node_prop_without.
Qed.

(** *** The markers of a page load *)

Lemma click_markers (d : value) (q : page) :
  markers (click_handler d q).1 = markers q
  /\ requests (click_handler d q).1 = requests q.
Proof.
  destruct (WidgetFacts.click_form number number_to_string browser d)
    as (F & res & Hc).
  by rewrite Hc.
Qed.

Lemma dispatch_click_markers (v : script) (d : value) (q : page) :
  markers (settle number (dispatch v (Click d)) q) = markers q
  /\ requests (settle number (dispatch v (Click d)) q) = requests q.
Proof.
  unfold settle. simpl. destruct (click_bound q); [|done].
  pose proof (click_markers d q) as H. run.
  by destruct (click_handler d q) as [q' [b| |]].
Qed.

Lemma dispatch_reply_markers (v : script) (response : value) (p q : page) :
  markers p = markers q ->
  requests p = requests q ->
  markers (settle number (dispatch v (Reply response)) p)
  = markers (settle number (dispatch v (Reply response)) q)
  /\ requests (settle number (dispatch v (Reply response)) p)
     = requests (settle number (dispatch v (Reply response)) q).
Proof.
  intros Hm Hr.
  destruct (WidgetFacts.done_appends number number_to_string leaflet_takes
              v response) as (added & outcome & Hd).
  unfold settle. simpl. rewrite <- Hr.
  destruct (requests p) eqn:Hp; simpl; [by rewrite Hp|].
  rewrite !Hd. simpl. by rewrite Hm, Hp.
Qed.

Lemma foldl_markers (v : script) (evs : list (event number)) (p q : page) :
  markers p = markers q ->
  requests p = requests q ->
  markers (foldl (fun p e => settle number (dispatch v e) p) p evs)
  = markers (foldl (fun p e => settle number (dispatch v e) p) q
               (filter is_reply evs)).
Proof.
  revert p q. induction evs as [|e evs IH]; intros p q Hpq Hreq; [done|].
  destruct e as [response|d].
  - rewrite filter_cons_True by done. cbn [foldl].
    destruct (dispatch_reply_markers v response p q Hpq Hreq) as [Hm Hr].
    by apply IH.
  - rewrite filter_cons_False by (simpl; auto). cbn [foldl].
    destruct (dispatch_click_markers v d p) as [Hm Hr].
    apply IH; congruence.
Qed.

(** X12: the markers of a loaded page are those its replies put there, in
    the order of the replies: clicks add none, remove none and change
    none. *)
Theorem markers_come_from_replies (v : script) (doc : gmap string string)
    (evs : list (event number)) :
  markers (load v doc evs) = markers (load v doc (filter is_reply evs)).
Proof. unfold Widget.load. by apply foldl_markers. Qed.

End Callbacks.
End OutcomeFacts.

(** * The callbacks on the sample responses *)

Module OutcomeChecks.
Import JS Widget Text Samples Outcomes.

Lemma application_stops_at_first_failure_witness :
  done_application Z pretty leaflet (response_of null_node) (served document)
  = (set_markers Z
       (fun ms => ms ++ (plain_marker <$> leading (lands Z leaflet) null_node))
       (served document),
     ending_application Z leaflet null_node)
  /\ placed (done_application Z pretty leaflet (response_of null_node)
               (served document)).1
     = placed (served document)
       ++ (record_coords <$> leading (lands Z leaflet) null_node).
Proof.
  apply (OutcomeFacts.application_stops_at_first_failure Z pretty leaflet
           (response_of null_node) null_node (served document)).
  vm_compute; reflexivity.
Defined.

(** With [null] for the latitude of the first gage: Leaflet's exception at
    the first edge, and no marker. *)
Example null_latitude_stops_application :
  leading (lands Z leaflet) null_latitude = []
  /\ ending_application Z leaflet null_latitude = LibraryError.
Proof. split; vm_compute; reflexivity. Qed.

Lemma part000_stops_at_failure_witness :
  done_part000 Z pretty leaflet (response_of odd_id_in_the_middle)
    (served document)
  = (set_markers Z
       (fun ms => ms ++ (popup_marker Z pretty
                           <$> leading (passes Z pretty leaflet)
                                 odd_id_in_the_middle)
                     ++ stranded Z pretty leaflet odd_id_in_the_middle)
       (served document),
     ending_part000 Z pretty leaflet odd_id_in_the_middle).
Proof.
  apply (OutcomeFacts.part000_stops_at_failure Z pretty leaflet
           (response_of odd_id_in_the_middle) odd_id_in_the_middle
           (served document)).
  vm_compute; reflexivity.
Defined.

(** With the odd id in the middle: the first gage has its popup, the second
    is on the map with its title alone, the third is not there. *)
Example stranded_in_the_middle :
  (done_part000 Z pretty leaflet (response_of odd_id_in_the_middle)
     (served document)).2 = TypeError
  /\ (fun m => (coords m, title m, bool_decide (is_Some (popup m))))
     <$> markers (done_part000 Z pretty leaflet
                    (response_of odd_id_in_the_middle) (served document)).1
     = [((VNum 31%Z, VNum (-110)%Z), Some (VStr "Desert Station"), true);
        ((VNum 32%Z, VNum (-111)%Z), Some (VStr "Ridge"), false)].
Proof. split; vm_compute; reflexivity. Qed.

Lemma malformed_reply_witness :
  done_callback Z pretty leaflet Part000 error_reply (served document)
  = (served document, TypeError).
Proof.
  apply (OutcomeFacts.malformed_reply_changes_nothing Z pretty leaflet Part000
           error_reply (served document)).
  left. vm_compute; reflexivity.
Defined.

Lemma one_tile_layer_witness :
  (map_made (load Z pretty browser leaflet Part000 document
               [Reply (response_of two_gages)]) = true
   /\ tiles (load Z pretty browser leaflet Part000 document
               [Reply (response_of two_gages)]) = [tile_url]
   /\ click_bound (load Z pretty browser leaflet Part000 document
                     [Reply (response_of two_gages)])
      = installs_handler Part000)
  /\ load Z pretty browser leaflet Part000 no_container
       [Reply (response_of two_gages); Click (VStr "Ridge")]
     = served no_container.
Proof.
  split.
  - apply (OutcomeFacts.one_tile_layer Z pretty browser leaflet Part000
             document [Reply (response_of two_gages)]).
    by eexists.
  - apply (OutcomeFacts.one_tile_layer Z pretty browser leaflet Part000
             no_container
             [Reply (response_of two_gages); Click (VStr "Ridge")]).
    reflexivity.
Defined.

Lemma click_without_text_witness :
  let p := load Z pretty browser leaflet Part000
             {[ "themap" := ""; "gage-name" := "Gage: Ridge" ]} [] in
  click_handler Z pretty browser (obj [("toString", VNull)]) p
  = (set_html_of Z (insert "gage-name" "") p, TypeError)
  /\ html_of (click_handler Z pretty browser (obj [("toString", VNull)]) p).1
       !! "gage-name" = Some "".
Proof.
  apply (OutcomeFacts.click_without_text Z pretty browser
           (obj [("toString", VNull)]) "Gage: Ridge");
    vm_compute; reflexivity.
Defined.

Lemma click_without_target_witness :
  (click_handler Z pretty browser (VStr "Ridge") (served ∅)).1 = served ∅
  /\ forall s, to_string Z pretty (VStr "Ridge") = Ok s ->
       click_handler Z pretty browser (VStr "Ridge") (served ∅)
       = (served ∅, Ok false).
Proof.
  apply (OutcomeFacts.click_without_target Z pretty browser (VStr "Ridge")
           (served ∅)).
  reflexivity.
Defined.

Example names_taken_out :
  erase_node_prop "name" (response_of two_gages) = response_of two_gages_unnamed.
Proof. vm_compute. reflexivity. Qed.

Lemma unread_properties_witness :
  done_application Z pretty leaflet
    (erase_node_prop "name" (response_of two_gages)) (served document)
  = done_application Z pretty leaflet (response_of two_gages)
      (served document).
Proof.
  assert ("name" <> "latitude") as Hlat by discriminate.
  assert ("name" <> "longitude") as Hlng by discriminate.
  exact (proj1 (OutcomeFacts.unread_properties Z pretty leaflet "name"
                  (response_of two_gages) (served document) Hlat Hlng)).
Defined.

End OutcomeChecks.
